(** * TableTap: the order aggregate and the cart lifecycle

    A shallow embedding of the three views of [tabletapapp/views.py] that
    touch [Order] and [Order_Item] rows -- [add_order_item], [view_cart] and
    [view_order] -- over the schema of [tabletapapp/models.py].

    Modelling conventions.
    - A database table is the list of its rows.  A query for the rows of one
      key ([filter(Order_ID=...)], [filter(Menu_ID=...)]) yields them in the
      order of the list; the owner's query for pending orders, which ranges
      over several restaurants and has no [order_by], is answered in an order
      of the store's choosing (see [pending_orders]).
    - A primary key is a [Z]; [0] is the "pick the first one" sentinel of the
      URL routes and is never the key of a stored row.
    - A [DecimalField] with two decimal places is an amount in cents, a [Z];
      an [IntegerField] is a [Z], as Python's [int] is.
    - [settings.py] is not among the sources; the store is Django's default
      backend, SQLite.  Its integer columns hold 64-bit signed integers: the
      form of an [IntegerField] refuses anything else, and a [save] of a
      wider quantity raises [OverflowError].  It writes a decimal of any
      width, and raises [decimal.InvalidOperation] when it reads back an
      [Order] whose [Total_Price] has more than the ten digits of the field.
      Prices come through [MenuItemForm], which validates their width.
    - A timestamp is a [Z]; each request carries the time at which it is
      served ([now]).
    - A Python exception is a value of [Exn]; a view that lets one escape
      answers with an internal server error.  Rows written before the
      exception stay written (no view runs inside a transaction). *)

From Stdlib Require Import ZArith List Bool String Lia Permutation.
Import ListNotations.
Open Scope Z_scope.

(** ** Schema ([models.py]) *)

Record Owner := mkOwner {
  Owner_id : Z;
  Owner_user : Z
}.

Record Restaurant := mkRestaurant {
  Restaurant_id : Z;
  Restaurant_Name : string;
  Table_Amount : Z
}.

Record Restaurant_Owner := mkRestaurant_Owner {
  RO_Owner_ID : Z;
  RO_Restaurant_ID : Z;
  RO_Created_At : Z
}.

Record Menu := mkMenu {
  Menu_id : Z;
  Menu_Name : string;
  Menu_Restaurant_ID : Z
}.

Record Menu_Item := mkMenu_Item {
  Menu_Item_id : Z;
  Item_Name : string;
  Description : string;
  Price : Z;
  Category_ID : Z
}.

Record Table := mkTable {
  Table_id : Z;
  Table_Restaurant_ID : Z
}.

Record Order := mkOrder {
  Order_id : Z;
  Table_ID : option Z;
  Restaurant_ID : Z;
  Created_At : Z;
  Updated_At : Z;
  Completed_Status : bool;
  Customer_Submitted : bool;
  Total_Price : Z
}.

Record Order_Item := mkOrder_Item {
  Order_Item_id : Z;
  Order_ID : Z;
  Item_ID : Z;
  Quantity : Z
}.

Record DB := mkDB {
  owners : list Owner;
  restaurants : list Restaurant;
  restaurant_owners : list Restaurant_Owner;
  menus : list Menu;
  menu_items : list Menu_Item;
  tables : list Table;
  orders : list Order;
  order_items : list Order_Item
}.

(** Attribute assignments on a fetched instance. *)

Definition set_Total_Price (o : Order) (p : Z) : Order :=
  mkOrder (Order_id o) (Table_ID o) (Restaurant_ID o) (Created_At o)
          (Updated_At o) (Completed_Status o) (Customer_Submitted o) p.

Definition set_Customer_Submitted (o : Order) (b : bool) : Order :=
  mkOrder (Order_id o) (Table_ID o) (Restaurant_ID o) (Created_At o)
          (Updated_At o) (Completed_Status o) b (Total_Price o).

Definition set_Completed_Status (o : Order) (b : bool) : Order :=
  mkOrder (Order_id o) (Table_ID o) (Restaurant_ID o) (Created_At o)
          (Updated_At o) b (Customer_Submitted o) (Total_Price o).

Definition set_Updated_At (o : Order) (t : Z) : Order :=
  mkOrder (Order_id o) (Table_ID o) (Restaurant_ID o) (Created_At o)
          t (Completed_Status o) (Customer_Submitted o) (Total_Price o).

Definition set_Quantity (r : Order_Item) (q : Z) : Order_Item :=
  mkOrder_Item (Order_Item_id r) (Order_ID r) (Item_ID r) q.

Definition set_orders (d : DB) (l : list Order) : DB :=
  mkDB (owners d) (restaurants d) (restaurant_owners d) (menus d)
       (menu_items d) (tables d) l (order_items d).

Definition set_order_items (d : DB) (l : list Order_Item) : DB :=
  mkDB (owners d) (restaurants d) (restaurant_owners d) (menus d)
       (menu_items d) (tables d) (orders d) l.

(** ** Requests, responses and exceptions *)

Inductive Method := GET | POST.

(** The [Quantity] field of the posted form, as the form field of an
    [IntegerField] reads it: an integer, or something that is not one. *)
Inductive QuantityField :=
| QInt (q : Z)
| QNotInt.

Record Request := mkRequest {
  method : Method;
  POST_Quantity : QuantityField;
  user : option Z;
  now : Z
}.

Inductive Exn :=
| DoesNotExist
| MultipleObjectsReturned
| UnboundLocalError
| AttributeError
| IndexError
| InvalidOperation
| OverflowError.

Inductive Res (A : Type) :=
| Ok (a : A)
| Raise (e : Exn).
Arguments Ok {A} a.
Arguments Raise {A} e.

Inductive Form := form_unbound | form_with_errors.

Record CartLine := mkCartLine {
  line_Item_Name : string;
  line_Quantity : Z;
  line_Price : Z
}.

Inductive Response :=
| redirect_customer_menu (table_id menu_id category_id : Z)
| redirect_view_order (order_id : Z)
| redirect_login
| render_add_order_item (form : Form) (item : Menu_Item)
                        (table_id restaurant_id menu_id : Z)
| render_view_cart (items : list CartLine) (table_id restaurant_id menu_id : Z)
                   (total_price : Z) (order : Order)
| render_view_order (items : list CartLine) (active_order : option Order)
                    (orders : list Order).

(** ** The monad of a view: the database and the client's session are
    threaded through, an exception stops the view where it is raised. *)

Record World := mkWorld {
  db : DB;
  session : option Z   (* request.session.get('order_id') *)
}.

Definition M (A : Type) : Type := World -> World * Res A.

Definition ret {A} (a : A) : M A := fun w => (w, Ok a).

Definition raise {A} (e : Exn) : M A := fun w => (w, Raise e).

Definition bind {A B} (m : M A) (k : A -> M B) : M B :=
  fun w => match m w with
           | (w', Ok a) => k a w'
           | (w', Raise e) => (w', Raise e)
           end.

Definition query {A} (f : DB -> Res A) : M A := fun w => (w, f (db w)).

Definition update (f : DB -> DB) : M unit :=
  fun w => (mkWorld (f (db w)) (session w), Ok tt).

Definition session_get : M (option Z) := fun w => (w, Ok (session w)).

Definition session_set (v : Z) : M unit :=
  fun w => (mkWorld (db w) (Some v), Ok tt).

(** [try: ... except DoesNotExist:] around a single query. *)
Definition attempt {A} (m : M A) : M (Res A) :=
  fun w => match m w with
           | (w', r) => (w', Ok r)
           end.

Declare Scope view_scope.
Delimit Scope view_scope with view.
Notation "x <- m ;; k" := (bind m (fun x => k))
  (at level 61, m at next level, right associativity) : view_scope.
Notation "m ;;; k" := (bind m (fun _ => k))
  (at level 61, right associativity) : view_scope.
Open Scope view_scope.

Fixpoint mapM {A B} (f : A -> M B) (l : list A) : M (list B) :=
  match l with
  | [] => ret []
  | a :: l' => b <- f a ;; bs <- mapM f l' ;; ret (b :: bs)
  end.

(** ** The object manager *)

(** [Model.objects.get(...)]: exactly one matching row, or an exception. *)
Definition objects_get {A} (p : A -> bool) (rows : list A) : Res A :=
  match filter p rows with
  | [] => Raise DoesNotExist
  | [r] => Ok r
  | _ :: _ :: _ => Raise MultipleObjectsReturned
  end.

(** [UPDATE ... WHERE id = key r']: the stored row that has the key of [r']
    becomes [r']. *)
Definition overwrite {A} (key : A -> Z) (r' : A) (rows : list A) : list A :=
  map (fun x => if key x =? key r' then r' else x) rows.

(** The key the store gives to a new row: above every key in use. *)
Definition fresh_id (ids : list Z) : Z := 1 + fold_right Z.max 0 ids.

(** In Python [None] and [0] are false. *)
Definition truthy (v : option Z) : option Z :=
  match v with
  | Some i => if i =? 0 then None else Some i
  | None => None
  end.

Definition Menu_Item_objects_get (id : Z) : M Menu_Item :=
  query (fun d => objects_get (fun i => Menu_Item_id i =? id) (menu_items d)).

Definition Menu_objects_get (id : Z) : M Menu :=
  query (fun d => objects_get (fun m => Menu_id m =? id) (menus d)).

Definition Table_objects_get (id : Z) : M Table :=
  query (fun d => objects_get (fun t => Table_id t =? id) (tables d)).

Definition Restaurant_objects_get (id : Z) : M Restaurant :=
  query (fun d => objects_get (fun r => Restaurant_id r =? id) (restaurants d)).

Definition Owner_objects_get (u : Z) : M Owner :=
  query (fun d => objects_get (fun o => Owner_user o =? u) (owners d)).

(** [Total_Price] is a [DecimalField(max_digits=10, decimal_places=2)]: the
    store hands back a row only when its amount has at most ten digits, and
    raises [decimal.InvalidOperation] when it converts a wider one. *)
Definition readable (o : Order) : bool :=
  Z.abs (Total_Price o) <? 10 ^ 10.

Definition read_Orders (rows : list Order) : Res (list Order) :=
  if forallb readable rows then Ok rows else Raise InvalidOperation.

Definition Order_objects_get (id : Z) : M Order :=
  query (fun d =>
    match read_Orders (filter (fun o => Order_id o =? id) (orders d)) with
    | Ok _ => objects_get (fun o => Order_id o =? id) (orders d)
    | Raise e => Raise e
    end).

(** [Order.objects.create(Table_ID=..., Restaurant_ID=...)]: the other fields
    take their defaults, both timestamps are the present time. *)
Definition new_Order (table restaurant t : Z) (d : DB) : Order :=
  mkOrder (fresh_id (map Order_id (orders d)))
          (Some table) restaurant t t false false 0.

Definition Order_objects_create (table restaurant t : Z) : M Order :=
  fun w =>
    let o := new_Order table restaurant t (db w) in
    (mkWorld (set_orders (db w) (orders (db w) ++ [o])) (session w), Ok o).

(** [order.save()] on a fetched instance: every column of the row with the
    instance's key is overwritten, [Updated_At] with the present time
    ([auto_now]); a key that is no longer stored is inserted again. *)
Definition save_Order (o : Order) (t : Z) (d : DB) : DB :=
  let o' := set_Updated_At o t in
  if existsb (fun r => Order_id r =? Order_id o) (orders d)
  then set_orders d (overwrite Order_id o' (orders d))
  else set_orders d (orders d ++ [o']).

Definition Order_save (o : Order) (t : Z) : M unit := update (save_Order o t).

Definition Order_Item_objects_get (order : Order) (item : Menu_Item) : M Order_Item :=
  query (fun d =>
    objects_get (fun r => (Order_ID r =? Order_id order)
                          && (Item_ID r =? Menu_Item_id item))
                (order_items d)).

Definition Order_Item_objects_filter (order : Order) : M (list Order_Item) :=
  query (fun d =>
    Ok (filter (fun r => Order_ID r =? Order_id order) (order_items d))).

(** The range of an integer column, which the form field of an
    [IntegerField] takes as its validators and outside of which the store
    refuses to write. *)
Definition integer_field_range : Z * Z := (- (2 ^ 63), 2 ^ 63 - 1).

Definition in_integer_range (q : Z) : bool :=
  (fst integer_field_range <=? q) && (q <=? snd integer_field_range).

(** [existed_item.save()]: the row with the instance's key is overwritten. *)
Definition save_Order_Item (r : Order_Item) (d : DB) : DB :=
  if existsb (fun x => Order_Item_id x =? Order_Item_id r) (order_items d)
  then set_order_items d (overwrite Order_Item_id r (order_items d))
  else set_order_items d (order_items d ++ [r]).

Definition Order_Item_save (r : Order_Item) : M unit :=
  if in_integer_range (Quantity r)
  then update (save_Order_Item r)
  else raise OverflowError.

(** [order_item.save()] on the instance built by [form.save(commit=False)],
    which has no key yet: a new row. *)
Definition insert_Order_Item (order : Order) (item : Menu_Item) (q : Z) (d : DB)
  : DB :=
  let r := mkOrder_Item (fresh_id (map Order_Item_id (order_items d)))
                        (Order_id order) (Menu_Item_id item) q in
  set_order_items d (order_items d ++ [r]).

Definition Order_Item_insert (order : Order) (item : Menu_Item) (q : Z) : M unit :=
  if in_integer_range q
  then update (insert_Order_Item order item q)
  else raise OverflowError.

(** [OrderItemForm(request.POST).is_valid()] and the cleaned [Quantity]: the
    field of the model is a plain [IntegerField], so the form accepts every
    integer of the column's range, whatever its sign, and nothing else. *)
Definition OrderItemForm_is_valid (f : QuantityField) : option Z :=
  match f with
  | QInt q => if in_integer_range q then Some q else None
  | QNotInt => None
  end.

(** [owner.Restaurants.all()]: the restaurants joined to the owner through
    [Restaurant_Owner]. *)
Definition Owner_Restaurants_all (d : DB) (owner : Owner) : list Restaurant :=
  flat_map (fun ro =>
              if RO_Owner_ID ro =? Owner_id owner
              then filter (fun r => Restaurant_id r =? RO_Restaurant_ID ro)
                          (restaurants d)
              else [])
           (restaurant_owners d).

(** [Order.objects.filter(Restaurant_ID__in=restaurants,
                          Customer_Submitted=True, Completed_Status=False)]:
    the rows that match.  The query has no [order_by] and ranges over the
    restaurants of the owner, so the order in which the store answers it is
    the store's own: an [answer] rearranges the matching rows, and the view
    is read for every answer that [rearranges] them.  The rows are converted
    as they are fetched, which fails on a row that is not [readable]. *)
Definition pending_orders (d : DB) (rs : list Restaurant) : list Order :=
  filter (fun o => existsb (fun r => Restaurant_id r =? Restaurant_ID o) rs
                   && Customer_Submitted o
                   && negb (Completed_Status o))
         (orders d).

Definition rearranges (answer : list Order -> list Order) : Prop :=
  forall rows, Permutation (answer rows) rows.

Definition Order_objects_filter_pending (answer : list Order -> list Order)
  (owner : Owner) : M (list Order) :=
  query (fun d =>
    read_Orders (answer (pending_orders d (Owner_Restaurants_all d owner)))).

(** One entry of the [items] list both order pages build:
    [item.Item_ID] follows the foreign key to the catalogue row. *)
Definition cart_line (r : Order_Item) : M CartLine :=
  item <- Menu_Item_objects_get (Item_ID r) ;;
  ret (mkCartLine (Item_Name item) (Quantity r) (Price item * Quantity r)).

(** A local variable that is assigned on some paths only. *)
Definition local {A} (e : Exn) (v : option A) : M A :=
  match v with
  | Some a => ret a
  | None => raise e
  end.

(** ** The views ([views.py]) *)

Definition add_order_item (request : Request) (table_id menu_id item_id : Z)
  : M Response :=
  item <- Menu_Item_objects_get item_id ;;
  order_id <- session_get ;;
  menu <- Menu_objects_get menu_id ;;
  order <- match truthy order_id with
           | Some id => Order_objects_get id
           | None =>
               table <- Table_objects_get table_id ;;
               order <- Order_objects_create (Table_id table)
                                             (Menu_Restaurant_ID menu)
                                             (now request) ;;
               session_set (Order_id order) ;;;
               ret order
           end ;;
  let page form :=
    ret (render_add_order_item form item table_id (Menu_Restaurant_ID menu)
                               menu_id) in
  match method request with
  | POST =>
      match OrderItemForm_is_valid (POST_Quantity request) with
      | Some quantity =>
          found <- attempt (Order_Item_objects_get order item) ;;
          order <- match found with
                   | Ok existed_item =>
                       let existed_item :=
                         set_Quantity existed_item
                                      (Quantity existed_item + quantity) in
                       Order_Item_save existed_item ;;;
                       ret (set_Total_Price order
                              (Total_Price order
                               + Quantity existed_item * Price item))
                   | Raise DoesNotExist =>
                       Order_Item_insert order item quantity ;;;
                       ret (set_Total_Price order
                              (Total_Price order + quantity * Price item))
                   | Raise e => raise e
                   end ;;
          Order_save order (now request) ;;;
          ret (redirect_customer_menu table_id menu_id 0)
      | None => page form_with_errors
      end
  | GET => page form_unbound
  end.

Definition view_cart (request : Request) (table_id restaurant_id menu_id : Z)
  : M Response :=
  order_id <- session_get ;;
  cart <- match truthy order_id with
          | Some id =>
              order <- Order_objects_get id ;;
              order_items <- Order_Item_objects_filter order ;;
              items <- mapM cart_line order_items ;;
              ret (Some order, items, Total_Price order)
          | None => ret (None, [], 0)
          end ;;
  let '(order, items, order_total_price) := cart in
  match method request with
  | POST =>
      order <- local UnboundLocalError order ;;
      Order_save (set_Customer_Submitted order true) (now request) ;;;
      ret (redirect_customer_menu table_id menu_id 0)
  | GET =>
      menu_id <- (if menu_id =? 0
                  then
                    restaurant <- Restaurant_objects_get restaurant_id ;;
                    menus <- query (fun d =>
                               Ok (filter (fun m => Menu_Restaurant_ID m
                                                    =? Restaurant_id restaurant)
                                          (menus d))) ;;
                    match menus with
                    | menu :: _ => ret (Menu_id menu)
                    | [] => raise IndexError
                    end
                  else ret menu_id) ;;
      order <- local UnboundLocalError order ;;
      ret (render_view_cart items table_id restaurant_id menu_id
                            order_total_price order)
  end.

(** [answer] is the order in which the store answers the query for the
    pending orders; the queryset is evaluated once, by [if orders:], and the
    same list is indexed and handed to the page. *)
Definition view_order (answer : list Order -> list Order) (request : Request)
  (order_id : Z) : M Response :=
  match user request with
  | None => ret redirect_login          (* @login_required *)
  | Some u =>
      owner <- Owner_objects_get u ;;
      orders <- Order_objects_filter_pending answer owner ;;
      active <- match orders with
                | first :: _ =>
                    let order_id :=
                      if order_id =? 0 then Order_id first else order_id in
                    order <- Order_objects_get order_id ;;
                    order_items <- Order_Item_objects_filter order ;;
                    items <- mapM cart_line order_items ;;
                    ret (Some order, items)
                | [] => ret (None, [])
                end ;;
      let '(order, items) := active in
      match method request with
      | POST =>
          order <- local AttributeError order ;;
          Order_save (set_Completed_Status order true) (now request) ;;;
          ret (redirect_view_order 0)
      | GET => ret (render_view_order items order orders)
      end
  end.

(** ** Observations and a small restaurant to run the views on *)

(** The line items of an order, and what they add up to at the catalogue's
    prices. *)
Definition lines_of (d : DB) (order_id : Z) : list Order_Item :=
  filter (fun r => Order_ID r =? order_id) (order_items d).

Definition price_of (d : DB) (item_id : Z) : Z :=
  match objects_get (fun i => Menu_Item_id i =? item_id) (menu_items d) with
  | Ok i => Price i
  | Raise _ => 0
  end.

Definition lines_total (d : DB) (order_id : Z) : Z :=
  fold_right Z.add 0
    (map (fun r => Quantity r * price_of d (Item_ID r)) (lines_of d order_id)).

Definition find_order (d : DB) (order_id : Z) : option Order :=
  find (fun o => Order_id o =? order_id) (orders d).

(** The rows that an order holds for one item, and their quantities. *)
Definition line_of (order_id item_id : Z) (r : Order_Item) : bool :=
  (Order_ID r =? order_id) && (Item_ID r =? item_id).

Definition quantities (d : DB) (order_id item_id : Z) : list Z :=
  map Quantity (filter (line_of order_id item_id) (order_items d)).

Inductive Lifecycle := OPEN | SUBMITTED | COMPLETED.

Definition lifecycle (o : Order) : Lifecycle :=
  if Completed_Status o then COMPLETED
  else if Customer_Submitted o then SUBMITTED
  else OPEN.

(** Two restaurants, each with its owner (users 7 and 8), one menu and its
    tables.  Item A costs 5.00 and item B 3.50 at the first restaurant,
    item C 4.00 at the second. *)
Definition demo_db : DB :=
  mkDB [mkOwner 1 7; mkOwner 2 8]
       [mkRestaurant 1 "North" 2; mkRestaurant 2 "South" 1]
       [mkRestaurant_Owner 1 1 0; mkRestaurant_Owner 2 2 0]
       [mkMenu 1 "Lunch" 1; mkMenu 2 "Dinner" 2]
       [mkMenu_Item 1 "A" "" 500 1; mkMenu_Item 2 "B" "" 350 1;
        mkMenu_Item 3 "C" "" 400 2]
       [mkTable 1 1; mkTable 2 1; mkTable 3 2]
       []
       [].

(** The cart posted for submission, and the order page posted or viewed by
    a logged-in user. *)
Definition post_cart (t : Z) : Request :=
  mkRequest POST QNotInt None t.

Definition post_as (u : Z) (t : Z) : Request :=
  mkRequest POST QNotInt (Some u) t.

Definition get_as (u : Z) (t : Z) : Request :=
  mkRequest GET QNotInt (Some u) t.

Ltac view_unfold :=
  unfold add_order_item, view_cart, view_order, bind, local, ret, raise, attempt,
    Menu_Item_objects_get, Menu_objects_get, Table_objects_get,
    Restaurant_objects_get, Owner_objects_get, Order_objects_get,
    Order_Item_objects_get, Order_Item_objects_filter, Order_objects_create,
    Order_objects_filter_pending, Order_save, Order_Item_save,
    Order_Item_insert, session_get, session_set, query, update.

(** On a session without an order the view first opens one and binds it,
    and then goes on as on a bound session. *)
Definition open_order (request : Request) (table : Table) (menu : Menu) (w : World)
  : World :=
  let o := new_Order (Table_id table) (Menu_Restaurant_ID menu) (now request)
                     (db w) in
  mkWorld (set_orders (db w) (orders (db w) ++ [o])) (Some (Order_id o)).

Definition same_catalogue (d d' : DB) : Prop :=
  menu_items d' = menu_items d /\ menus d' = menus d /\ tables d' = tables d.

Definition status_of (x : Order) : Z * bool * bool :=
  (Order_id x, Customer_Submitted x, Completed_Status x).

Definition total_quantity (l : list Z) : Z := fold_right Z.add 0 l.

Record Call := mkCall {
  call_table : Z;
  call_menu : Z;
  call_item : Z;
  call_quantity : Z;
  call_now : Z
}.

(** [add_item]: the posted form of [add_order_item], with an integer in the
    [Quantity] field. *)
Definition add_item (c : Call) : M Response :=
  add_order_item (mkRequest POST (QInt (call_quantity c)) None (call_now c))
                 (call_table c) (call_menu c) (call_item c).

Fixpoint run_calls (cs : list Call) (w : World) : World * list (Res Response) :=
  match cs with
  | [] => (w, [])
  | c :: cs' =>
      let (w1, r) := add_item c w in
      let (w2, rs) := run_calls cs' w1 in
      (w2, r :: rs)
  end.

Definition is_Ok {A} (r : Res A) : bool :=
  match r with Ok _ => true | Raise _ => false end.




Definition accepted (c : Call) (r : Res Response) : Prop :=
  r = Ok (redirect_customer_menu (call_table c) (call_menu c) 0).

(** Primary keys are unique and every line item belongs to a stored order. *)
Record well_keyed (d : DB) : Prop := mk_well_keyed {
  order_keys : NoDup (map Order_id (orders d));
  order_item_keys : NoDup (map Order_Item_id (order_items d));
  order_item_owner :
    Forall (fun r => In (Order_ID r) (map Order_id (orders d))) (order_items d)
}.

Definition demo_calls : list Call :=
  [mkCall 1 1 1 2 10; mkCall 1 1 1 1 11; mkCall 1 1 2 1 12].

(** The running example of the specification: item A, 5.00, is added with
    quantity 2 and then again with quantity 1. *)
Definition two_adds_of_A : World :=
  fst (run_calls [mkCall 1 1 1 2 10; mkCall 1 1 1 1 11] (mkWorld demo_db None)).

Definition stored_total (d : DB) (order_id : Z) : option Z :=
  option_map Total_Price (find_order d order_id).

(** The catalogue row of every line of the order can be fetched. *)
Definition lines_resolvable (d : DB) (order_id : Z) : bool :=
  forallb (fun r => is_Ok (objects_get (fun i => Menu_Item_id i =? Item_ID r)
                                       (menu_items d)))
          (lines_of d order_id).

(** Client A orders two A at table 1 of the first restaurant and submits the
    cart; client B then opens an order at table 3 of the second restaurant
    and does not submit it. *)
Definition client_A_ordered : World :=
  fst (add_item (mkCall 1 1 1 2 10) (mkWorld demo_db None)).

Definition client_A_submitted : World :=
  fst (view_cart (post_cart 11) 1 1 1 client_A_ordered).

Definition client_B_ordered : World :=
  fst (add_item (mkCall 3 2 3 1 12) (mkWorld (db client_A_submitted) None)).

(** A store that answers in the order of the table. *)
Definition in_table_order (rows : list Order) : list Order := rows.

(** A store that answers through the index on [Restaurant_ID]: the rows of
    the restaurant with the smallest key first, and the rows of one
    restaurant in the order of the table. *)
Fixpoint insert_by_restaurant (o : Order) (rows : list Order) : list Order :=
  match rows with
  | [] => [o]
  | x :: rows' =>
      if Restaurant_ID o <=? Restaurant_ID x
      then o :: rows
      else x :: insert_by_restaurant o rows'
  end.

Definition by_restaurant_index (rows : list Order) : list Order :=
  fold_right insert_by_restaurant [] rows.

(** The owner of the first restaurant (user 7) has one pending order, so that
    every store answers the query with the same list; the owner posts the
    page of order 2. *)
Definition owner_7_completed_2 : World :=
  fst (view_order in_table_order (post_as 7 13) 2
                  (mkWorld (db client_B_ordered) None)).

Definition stored_lifecycle (d : DB) (order_id : Z) : option Lifecycle :=
  option_map lifecycle (find_order d order_id).

Definition stored_status (d : DB) (order_id : Z) : option (Z * bool * bool) :=
  option_map status_of (find_order d order_id).



(** The owner is joined to the restaurant through [Restaurant_Owner]. *)
Definition owns (d : DB) (owner : Owner) (restaurant_id : Z) : Prop :=
  exists ro r,
    In ro (restaurant_owners d)
    /\ RO_Owner_ID ro = Owner_id owner
    /\ In r (restaurants d)
    /\ Restaurant_id r = RO_Restaurant_ID ro
    /\ Restaurant_id r = restaurant_id.

Definition all_lines_resolvable (d : DB) : bool :=
  forallb (fun r => is_Ok (objects_get (fun i => Menu_Item_id i =? Item_ID r)
                                       (menu_items d)))
          (order_items d).

(** User 7 owns both restaurants.  Order 1 was created at 10 in the second
    restaurant, order 2 at 20 in the first one; both are pending. *)
Definition two_kitchens : DB :=
  mkDB [mkOwner 1 7; mkOwner 2 8]
       [mkRestaurant 1 "North" 2; mkRestaurant 2 "South" 1]
       [mkRestaurant_Owner 1 1 0; mkRestaurant_Owner 2 2 0;
        mkRestaurant_Owner 1 2 0]
       [mkMenu 1 "Lunch" 1; mkMenu 2 "Dinner" 2]
       [mkMenu_Item 1 "A" "" 500 1; mkMenu_Item 2 "B" "" 350 1;
        mkMenu_Item 3 "C" "" 400 2]
       [mkTable 1 1; mkTable 2 1; mkTable 3 2]
       [mkOrder 1 (Some 3) 2 10 11 false true 400;
        mkOrder 2 (Some 1) 1 20 21 false true 500]
       [].


(** Client A, whose order 1 is SUBMITTED, posts twenty million more A. *)
Definition client_A_added_wide : World :=
  fst (add_item (mkCall 1 1 1 20000000 12) client_A_submitted).

(** Client B orders twenty-five million C at 4.00 at the second
    restaurant. *)
Definition client_B_ordered_wide : World :=
  fst (add_item (mkCall 3 2 3 25000000 12)
                (mkWorld (db client_A_submitted) None)).

(** A client who has opened the form of item A at table 1: the view has
    opened an order and bound the session to it. *)
Definition client_at_form : World :=
  fst (add_order_item (mkRequest GET QNotInt None 9) 1 1 1
                      (mkWorld demo_db None)).


(** ** Further observations *)

Definition lines_unique (d : DB) : Prop :=
  forall o i, (List.length (quantities d o i) <= 1)%nat.

(** Primary keys of [Order] and [Order_Item] are unique, and no order has two
    lines for one item ([unique_together] of [Order_Item]). *)
Record keyed (d : DB) : Prop := mk_keyed {
  keyed_orders : NoDup (map Order_id (orders d));
  keyed_order_items : NoDup (map Order_Item_id (order_items d));
  keyed_lines : lines_unique d
}.

(** What a page shows for a stored line: the name and the present price of
    the catalogue row of its item. *)
Definition shows (d : DB) (r : Order_Item) (l : CartLine) : Prop :=
  exists item,
    objects_get (fun i => Menu_Item_id i =? Item_ID r) (menu_items d) = Ok item
    /\ l = mkCartLine (Item_Name item) (Quantity r) (Price item * Quantity r).

(** ** The catalogue views ([views.py], the owner's side and the menu pages)

    These views also read and write [Menu_Category], which the order views
    never touch: a [Site] is the store of the order views together with that
    table.  [get_object_or_404] turns a missing row into the "not found"
    answer [Http404]; every other exception escapes as before. *)

From Stdlib Require DecimalString.

Record Menu_Category := mkMenu_Category {
  Menu_Category_id : Z;
  Category_Name : string;
  Menu_ID : Z
}.

Record Site := mkSite {
  store : DB;
  menu_categories : list Menu_Category
}.

Definition set_restaurants (d : DB) (l : list Restaurant) : DB :=
  mkDB (owners d) l (restaurant_owners d) (menus d) (menu_items d) (tables d)
       (orders d) (order_items d).

Definition set_restaurant_owners (d : DB) (l : list Restaurant_Owner) : DB :=
  mkDB (owners d) (restaurants d) l (menus d) (menu_items d) (tables d)
       (orders d) (order_items d).

Definition set_menus (d : DB) (l : list Menu) : DB :=
  mkDB (owners d) (restaurants d) (restaurant_owners d) l (menu_items d)
       (tables d) (orders d) (order_items d).

Definition set_menu_items (d : DB) (l : list Menu_Item) : DB :=
  mkDB (owners d) (restaurants d) (restaurant_owners d) (menus d) l (tables d)
       (orders d) (order_items d).

Definition set_tables (d : DB) (l : list Table) : DB :=
  mkDB (owners d) (restaurants d) (restaurant_owners d) (menus d)
       (menu_items d) l (orders d) (order_items d).

Inductive Failure :=
| Http404
| Uncaught (e : Exn).

Inductive Outcome (A : Type) :=
| Done (a : A)
| Fail (f : Failure).
Arguments Done {A} a.
Arguments Fail {A} f.

(** A request of a catalogue view.  [req_form] holds the cleaned fields of
    the posted form when the form validates, and nothing when it does not. *)
Record OwnerRequest (F : Type) := mkOwnerRequest {
  req_method : Method;
  req_user : option Z;
  req_form : option F;
  req_now : Z
}.
Arguments mkOwnerRequest {F} _ _ _ _.
Arguments req_method {F} _.
Arguments req_user {F} _.
Arguments req_form {F} _.
Arguments req_now {F} _.

Record RestaurantFields := mkRestaurantFields {
  field_Restaurant_Name : string;
  field_Table_Amount : Z
}.

Record MenuItemFields := mkMenuItemFields {
  field_Item_Name : string;
  field_Description : string;
  field_Price : Z
}.

Inductive Page :=
| to_login
| to_profile
| to_owner_menu (menu_id category_id : Z)
| page_edit_restaurant (form : Form)
| page_add_menu (form : Form) (restaurant_id : Z)
| page_add_category (form : Form) (menu : Menu)
| page_add_item (form : Form) (category : Menu_Category)
| page_dashboard (user : Z) (menu : Menu) (categories : list Menu_Category)
                 (active_category : option Menu_Category)
                 (items : list Menu_Item)
| page_menu_customer (user : option Z) (menu : Menu)
                     (categories : list Menu_Category)
                     (active_category : option Menu_Category)
                     (items : list Menu_Item) (table_id : Z)
                     (restaurant : Restaurant)
| page_all_menus (restaurant : Restaurant) (menus : list Menu) (table_id : Z)
| page_qr_code (restaurant : Restaurant) (links : list string)
               (menu : option Menu)
| page_profile_view (user : Z) (restaurants : list Restaurant)
                    (menus : list Menu).

Definition Visit (A : Type) : Type := Site -> Site * Outcome A.

Definition done {A} (a : A) : Visit A := fun s => (s, Done a).

Definition refuse {A} (f : Failure) : Visit A := fun s => (s, Fail f).

Definition andthen {A B} (m : Visit A) (k : A -> Visit B) : Visit B :=
  fun s => match m s with
           | (s', Done a) => k a s'
           | (s', Fail f) => (s', Fail f)
           end.

Definition read {A} (f : Site -> Outcome A) : Visit A := fun s => (s, f s).

Definition write (f : Site -> Site) : Visit unit := fun s => (f s, Done tt).

Declare Scope site_scope.
Delimit Scope site_scope with site.
Notation "x <~ m ;; k" := (andthen m (fun x => k))
  (at level 61, m at next level, right associativity) : site_scope.
Notation "m ~;; k" := (andthen m (fun _ => k))
  (at level 61, right associativity) : site_scope.
Open Scope site_scope.

Fixpoint for_each {A B} (f : A -> Visit B) (l : list A) : Visit (list B) :=
  match l with
  | [] => done []
  | a :: l' => b <~ f a ;; bs <~ for_each f l' ;; done (b :: bs)
  end.

Fixpoint repeat_times (n : nat) (m : Visit unit) : Visit unit :=
  match n with
  | O => done tt
  | Datatypes.S n' => m ~;; repeat_times n' m
  end.

(** [Model.objects.get(...)] outside a [try]. *)
Definition get_or_raise {A} (p : A -> bool) (rows : list A) : Outcome A :=
  match objects_get p rows with
  | Ok r => Done r
  | Raise e => Fail (Uncaught e)
  end.

Definition get_object_or_404 {A} (p : A -> bool) (rows : list A) : Outcome A :=
  match objects_get p rows with
  | Ok r => Done r
  | Raise DoesNotExist => Fail Http404
  | Raise e => Fail (Uncaught e)
  end.

Definition Owner_of_user (u : Z) : Visit Owner :=
  read (fun s => get_or_raise (fun o => Owner_user o =? u) (owners (store s))).

Definition Restaurant_or_404 (id : Z) : Visit Restaurant :=
  read (fun s => get_object_or_404 (fun r => Restaurant_id r =? id)
                                   (restaurants (store s))).

Definition Menu_or_404 (id : Z) : Visit Menu :=
  read (fun s => get_object_or_404 (fun m => Menu_id m =? id)
                                   (menus (store s))).

Definition Menu_Category_or_404 (id : Z) : Visit Menu_Category :=
  read (fun s => get_object_or_404 (fun c => Menu_Category_id c =? id)
                                   (menu_categories s)).

(** [get_object_or_404(Restaurant_Owner, Owner_ID=owner,
                       Restaurant_ID=restaurant)], the authorisation check. *)
Definition Restaurant_Owner_or_404 (owner : Owner) (restaurant : Restaurant)
  : Visit Restaurant_Owner :=
  read (fun s =>
    get_object_or_404
      (fun ro => (RO_Owner_ID ro =? Owner_id owner)
                 && (RO_Restaurant_ID ro =? Restaurant_id restaurant))
      (restaurant_owners (store s))).

(** [menu.Restaurant_ID]: the foreign key is followed to its row. *)
Definition Restaurant_of_menu (menu : Menu) : Visit Restaurant :=
  read (fun s =>
    get_or_raise (fun r => Restaurant_id r =? Menu_Restaurant_ID menu)
                 (restaurants (store s))).

Definition site_store (f : DB -> DB) (s : Site) : Site :=
  mkSite (f (store s)) (menu_categories s).

(** [form.save()] of a [RestaurantForm]: a new row. *)
Definition Restaurant_insert (fields : RestaurantFields) : Visit Restaurant :=
  fun s =>
    let r := mkRestaurant (fresh_id (map Restaurant_id (restaurants (store s))))
                          (field_Restaurant_Name fields)
                          (field_Table_Amount fields) in
    (site_store (fun d => set_restaurants d (restaurants d ++ [r])) s, Done r).

Definition Restaurant_Owner_create (owner : Owner) (restaurant : Restaurant)
           (t : Z) : Visit unit :=
  write (site_store (fun d =>
    set_restaurant_owners d
      (restaurant_owners d
       ++ [mkRestaurant_Owner (Owner_id owner) (Restaurant_id restaurant) t]))).

Definition Menu_insert (name : string) (restaurant : Restaurant) : Visit unit :=
  write (site_store (fun d =>
    set_menus d
      (menus d ++ [mkMenu (fresh_id (map Menu_id (menus d))) name
                          (Restaurant_id restaurant)]))).

Definition Menu_Category_insert (name : string) (menu : Menu) : Visit unit :=
  write (fun s =>
    mkSite (store s)
      (menu_categories s
       ++ [mkMenu_Category
             (fresh_id (map Menu_Category_id (menu_categories s)))
             name (Menu_id menu)])).

Definition Menu_Item_insert (fields : MenuItemFields) (category : Menu_Category)
  : Visit unit :=
  write (site_store (fun d =>
    set_menu_items d
      (menu_items d
       ++ [mkMenu_Item (fresh_id (map Menu_Item_id (menu_items d)))
                       (field_Item_Name fields) (field_Description fields)
                       (field_Price fields) (Menu_Category_id category)]))).

(** [Table(Restaurant_ID=restaurant).save()] *)
Definition Table_insert (restaurant : Restaurant) : Visit unit :=
  write (site_store (fun d =>
    set_tables d
      (tables d ++ [mkTable (fresh_id (map Table_id (tables d)))
                            (Restaurant_id restaurant)]))).

Definition tables_of (d : DB) (restaurant_id : Z) : list Table :=
  filter (fun t => Table_Restaurant_ID t =? restaurant_id) (tables d).

Definition menus_of (d : DB) (restaurant_id : Z) : list Menu :=
  filter (fun m => Menu_Restaurant_ID m =? restaurant_id) (menus d).

Definition categories_of (s : Site) (menu_id : Z) : list Menu_Category :=
  filter (fun c => Menu_ID c =? menu_id) (menu_categories s).

Definition items_of (d : DB) (category_id : Z) : list Menu_Item :=
  filter (fun i => Category_ID i =? category_id) (menu_items d).

(** [@login_required] *)
Definition login_required {F} (request : OwnerRequest F)
           (view : Z -> Visit Page) : Visit Page :=
  match req_user request with
  | Some u => view u
  | None => done to_login
  end.

Definition add_restaurant (request : OwnerRequest RestaurantFields)
  : Visit Page :=
  login_required request (fun u =>
    match req_method request with
    | POST =>
        match req_form request with
        | Some fields =>
            restaurant <~ Restaurant_insert fields ;;
            owner <~ Owner_of_user u ;;
            Restaurant_Owner_create owner restaurant (req_now request) ~;;
            done to_profile
        | None => done (page_edit_restaurant form_with_errors)
        end
    | GET => done (page_edit_restaurant form_unbound)
    end).

Definition add_menu (request : OwnerRequest string) (restaurant_id : Z)
  : Visit Page :=
  login_required request (fun u =>
    restaurant <~ Restaurant_or_404 restaurant_id ;;
    owner <~ Owner_of_user u ;;
    restaurant_owner <~ Restaurant_Owner_or_404 owner restaurant ;;
    match req_method request with
    | POST =>
        match req_form request with
        | Some name =>
            Menu_insert name restaurant ~;;
            done to_profile
        | None => done (page_add_menu form_with_errors restaurant_id)
        end
    | GET => done (page_add_menu form_unbound restaurant_id)
    end).

(** The block that [dashboard] and [customer_menu] share: category [0]
    stands for the first category of the menu, if it has one. *)
Definition active_category_and_items (menu_id category_id : Z)
  : Visit (list Menu_Category * option Menu_Category * list Menu_Item) :=
  categories <~ read (fun s => Done (categories_of s menu_id)) ;;
  active_category <~
    (if category_id =? 0
     then done (match categories with
                | first :: _ => Some first
                | [] => None
                end)
     else category <~ Menu_Category_or_404 category_id ;;
          done (Some category)) ;;
  items <~ match active_category with
           | Some c => read (fun s => Done (items_of (store s)
                                                     (Menu_Category_id c)))
           | None => done []
           end ;;
  done (categories, active_category, items).

Definition dashboard (request : OwnerRequest unit) (menu_id category_id : Z)
  : Visit Page :=
  login_required request (fun u =>
    owner <~ Owner_of_user u ;;
    menu <~ Menu_or_404 menu_id ;;
    restaurant <~ Restaurant_of_menu menu ;;
    restaurant_owner <~ Restaurant_Owner_or_404 owner restaurant ;;
    shown <~ active_category_and_items menu_id category_id ;;
    let '(categories, active_category, items) := shown in
    done (page_dashboard u menu categories active_category items)).

Definition add_category (request : OwnerRequest string) (menu_id : Z)
  : Visit Page :=
  login_required request (fun u =>
    owner <~ Owner_of_user u ;;
    menu <~ Menu_or_404 menu_id ;;
    restaurant <~ Restaurant_of_menu menu ;;
    restaurant_owner <~ Restaurant_Owner_or_404 owner restaurant ;;
    match req_method request with
    | POST =>
        match req_form request with
        | Some name =>
            Menu_Category_insert name menu ~;;
            done (to_owner_menu menu_id 0)
        | None => done (page_add_category form_with_errors menu)
        end
    | GET => done (page_add_category form_unbound menu)
    end).

Definition add_menu_item (request : OwnerRequest MenuItemFields)
           (menu_id category_id : Z) : Visit Page :=
  login_required request (fun u =>
    owner <~ Owner_of_user u ;;
    menu <~ Menu_or_404 menu_id ;;
    restaurant <~ Restaurant_of_menu menu ;;
    restaurant_owner <~ Restaurant_Owner_or_404 owner restaurant ;;
    category <~ Menu_Category_or_404 category_id ;;
    match req_method request with
    | POST =>
        match req_form request with
        | Some fields =>
            Menu_Item_insert fields category ~;;
            done (to_owner_menu menu_id 0)
        | None => done (page_add_item form_with_errors category)
        end
    | GET => done (page_add_item form_unbound category)
    end).

Definition decimal (z : Z) : string :=
  DecimalString.NilZero.string_of_int (Z.to_int z).

(** The address that a table's code encodes. *)
Definition customer_link (table : Table) (menu : Menu)
           (category : Menu_Category) : string :=
  ("https://infs3202-2c7cb2f8.uqcloud.net/TableTap/customer/"
   ++ decimal (Table_id table) ++ "/menu/" ++ decimal (Menu_id menu) ++ "/"
   ++ decimal (Menu_Category_id category) ++ "/")%string.

(** [tables[i]] on the query: the [i]-th row it yields, or [IndexError]. *)
Definition table_at (restaurant_id : Z) (i : nat) : Visit Table :=
  read (fun s => match nth_error (tables_of (store s) restaurant_id) i with
                 | Some t => Done t
                 | None => Fail (Uncaught IndexError)
                 end).

Definition qr_code (request : OwnerRequest unit) (restaurant_id : Z)
  : Visit Page :=
  login_required request (fun u =>
    owner <~ Owner_of_user u ;;
    restaurant <~ Restaurant_or_404 restaurant_id ;;
    restaurant_owner <~ Restaurant_Owner_or_404 owner restaurant ;;
    let table_amount := Table_Amount restaurant in
    tables <~ read (fun s => Done (tables_of (store s) restaurant_id)) ;;
    (if Z.of_nat (List.length tables) <? table_amount
     then
       let amount_to_create := table_amount - Z.of_nat (List.length tables) in
       repeat_times (Z.to_nat amount_to_create) (Table_insert restaurant)
     else done tt) ~;;
    menu <~ read (fun s => Done (menus_of (store s) restaurant_id)) ;;
    match menu with
    | menu :: _ =>
        categories <~ read (fun s => Done (categories_of s (Menu_id menu))) ;;
        match categories with
        | category :: _ =>
            links <~ for_each (fun i =>
                       table <~ table_at restaurant_id i ;;
                       done (customer_link table menu category))
                     (seq 0 (Z.to_nat table_amount)) ;;
            done (page_qr_code restaurant links (Some menu))
        | [] => done (page_qr_code restaurant [] None)
        end
    | [] => done (page_qr_code restaurant [] None)
    end).

Definition customer_menu (request : OwnerRequest unit)
           (table_id menu_id category_id : Z) : Visit Page :=
  menu <~ Menu_or_404 menu_id ;;
  shown <~ active_category_and_items menu_id category_id ;;
  let '(categories, active_category, items) := shown in
  restaurant <~ Restaurant_of_menu menu ;;
  done (page_menu_customer (req_user request) menu categories active_category
                           items table_id restaurant).

Definition all_menus (request : OwnerRequest unit) (table_id restaurant_id : Z)
  : Visit Page :=
  restaurant <~ Restaurant_or_404 restaurant_id ;;
  menus <~ read (fun s => Done (menus_of (store s)
                                         (Restaurant_id restaurant))) ;;
  done (page_all_menus restaurant menus table_id).

Definition profile_view (request : OwnerRequest unit) : Visit Page :=
  login_required request (fun u =>
    owner <~ Owner_of_user u ;;
    restaurants <~ read (fun s =>
                     Done (Owner_Restaurants_all (store s) owner)) ;;
    menus <~ read (fun s => Done (menus (store s))) ;;
    done (page_profile_view u restaurants menus)).

Close Scope site_scope.

(** The rows of [Table] after [n] more tables were saved for a restaurant. *)
Fixpoint topped_up (n : nat) (ts : list Table) (restaurant_id : Z)
  : list Table :=
  match n with
  | O => ts
  | Datatypes.S n' =>
      topped_up n' (ts ++ [mkTable (fresh_id (map Table_id ts)) restaurant_id])
                restaurant_id
  end.

(** The number of tables a restaurant still lacks. *)
Definition tables_missing (d : DB) (restaurant : Restaurant) : nat :=
  Z.to_nat (Table_Amount restaurant
            - Z.of_nat (List.length (tables_of d (Restaurant_id restaurant)))).

Definition with_tables (s : Site) (ts : list Table) : Site :=
  mkSite (set_tables (store s) ts) (menu_categories s).

(** What the page of the codes is made of, read off the store as the view
    leaves it. *)
Definition codes_of (s : Site) (restaurant : Restaurant)
  : list string * option Menu :=
  match menus_of (store s) (Restaurant_id restaurant) with
  | menu :: _ =>
      match categories_of s (Menu_id menu) with
      | category :: _ =>
          (map (fun table => customer_link table menu category)
               (firstn (Z.to_nat (Table_Amount restaurant))
                       (tables_of (store s) (Restaurant_id restaurant))),
           Some menu)
      | [] => ([], None)
      end
  | [] => ([], None)
  end.

Ltac site_unfold :=
  unfold login_required, Owner_of_user, Restaurant_or_404, Menu_or_404,
    Menu_Category_or_404, Restaurant_Owner_or_404, Restaurant_of_menu,
    Restaurant_insert, Restaurant_Owner_create, Menu_insert,
    Menu_Category_insert, Menu_Item_insert, Table_insert, andthen, done,
    refuse, read, write.

(** The two restaurants with a category on each menu: the items A and B are
    mains of the first, item C is from the grill of the second. *)
Definition demo_site : Site :=
  mkSite demo_db [mkMenu_Category 1 "Mains" 1; mkMenu_Category 2 "Grill" 2].

(** The same with the first restaurant set to five tables; two are stored. *)
Definition site_of_five : Site :=
  mkSite (set_restaurants demo_db
            [mkRestaurant 1 "North" 5; mkRestaurant 2 "South" 1])
         [mkMenu_Category 1 "Mains" 1; mkMenu_Category 2 "Grill" 2].

(** The demonstration site after user 7 has added the menu "Brunch". *)
Definition site_with_new_menu : Site :=
  fst (add_menu (mkOwnerRequest POST (Some 7) (Some "Brunch"%string) 50) 1
                demo_site).

(** ** Facts about the object manager *)

Section Keys.
Context {A : Type} (key : A -> Z).

Lemma filter_key_absent (k : Z) (rows : list A) :
  ~ In k (map key rows) -> filter (fun r => key r =? k) rows = [].
Proof.
  induction rows as [|a rows IH]; simpl; intros H; [reflexivity|].
  destruct (Z.eqb_spec (key a) k) as [E|E].
  - exfalso. apply H. now left.
  - apply IH. intros H'. apply H. now right.
Qed.

Lemma filter_key_unique (r : A) (rows : list A) :
  NoDup (map key rows) -> In r rows ->
  filter (fun x => key x =? key r) rows = [r].
Proof.
  induction rows as [|a rows IH]; simpl; intros ND HIn; [contradiction|].
  inversion ND as [|? ? Hnotin ND']; subst.
  destruct HIn as [->|HIn].
  - rewrite Z.eqb_refl. f_equal. now apply filter_key_absent.
  - destruct (Z.eqb_spec (key a) (key r)) as [E|E].
    + exfalso. apply Hnotin. rewrite E. now apply in_map.
    + now apply IH.
Qed.

Lemma objects_get_unique (r : A) (rows : list A) :
  NoDup (map key rows) -> In r rows ->
  objects_get (fun x => key x =? key r) rows = Ok r.
Proof.
  intros ND HIn. unfold objects_get. now rewrite filter_key_unique.
Qed.

Lemma objects_get_Ok_In (p : A -> bool) (rows : list A) (r : A) :
  objects_get p rows = Ok r -> In r rows /\ p r = true.
Proof.
  unfold objects_get. intros H.
  destruct (filter p rows) as [|a [|b l]] eqn:E; try discriminate.
  injection H as ->. apply filter_In. rewrite E. now left.
Qed.

Lemma key_injective (x r : A) (rows : list A) :
  NoDup (map key rows) -> In x rows -> In r rows -> key x = key r -> x = r.
Proof.
  induction rows as [|a rows IH]; simpl; intros ND Hx Hr E; [contradiction|].
  inversion ND as [|? ? Hnotin ND']; subst.
  destruct Hx as [->|Hx], Hr as [->|Hr]; auto.
  - exfalso. apply Hnotin. rewrite E. now apply in_map.
  - exfalso. apply Hnotin. rewrite <- E. now apply in_map.
Qed.

Lemma overwrite_keys (r' : A) (rows : list A) :
  map key (overwrite key r' rows) = map key rows.
Proof.
  unfold overwrite. rewrite map_map. apply map_ext_in. intros a _.
  destruct (Z.eqb_spec (key a) (key r')); congruence.
Qed.

Lemma existsb_key_In (r : A) (rows : list A) :
  In r rows -> existsb (fun x => key x =? key r) rows = true.
Proof.
  intros H. apply existsb_exists. exists r. split; [assumption|apply Z.eqb_refl].
Qed.
End Keys.

Lemma fresh_id_above (ids : list Z) (x : Z) : In x ids -> x < fresh_id ids.
Proof.
  unfold fresh_id. induction ids as [|a ids IH]; cbn [fold_right In];
    [contradiction|].
  intros [->|H]; [lia|]. specialize (IH H). lia.
Qed.

Lemma fresh_id_positive (ids : list Z) : 0 < fresh_id ids.
Proof.
  unfold fresh_id. induction ids as [|a ids IH]; cbn [fold_right]; lia.
Qed.

Lemma fresh_id_not_in (ids : list Z) : ~ In (fresh_id ids) ids.
Proof. intros H. apply fresh_id_above in H. lia. Qed.

Lemma NoDup_snoc_fresh (ids : list Z) :
  NoDup ids -> NoDup (ids ++ [fresh_id ids]).
Proof.
  intros ND. apply NoDup_app; [assumption| |].
  - constructor; [simpl; tauto|constructor].
  - intros x Hx [<-|[]]. now apply fresh_id_not_in in Hx.
Qed.

(** ** Reading an order back *)

Lemma objects_get_rows {A} (p : A -> bool) (rows : list A) (r : A) :
  objects_get p rows = Ok r -> filter p rows = [r].
Proof.
  unfold objects_get. destruct (filter p rows) as [|a [|b l]]; try discriminate.
  now intros [= ->].
Qed.

Lemma read_Orders_one (order : Order) :
  readable order = true -> read_Orders [order] = Ok [order].
Proof. intros H. unfold read_Orders. cbn [forallb]. now rewrite H. Qed.

Lemma readable_width (order : Order) :
  Z.abs (Total_Price order) < 10 ^ 10 -> readable order = true.
Proof. intros H. now apply Z.ltb_lt. Qed.

Lemma all_readable_width (rows : list Order) :
  Forall (fun x => Z.abs (Total_Price x) < 10 ^ 10) rows ->
  forallb readable rows = true.
Proof.
  intros H. apply forallb_forall. intros x Hx.
  apply readable_width. revert x Hx. now apply Forall_forall.
Qed.

Lemma in_integer_range_bits (q : Z) :
  - 2 ^ 63 <= q < 2 ^ 63 -> in_integer_range q = true.
Proof.
  intros H. unfold in_integer_range, integer_field_range. cbn [fst snd].
  apply andb_true_iff. split; apply Z.leb_le; lia.
Qed.

Lemma Order_objects_get_stored (w : World) (o : Z) (order : Order) :
  objects_get (fun x => Order_id x =? o) (orders (db w)) = Ok order ->
  readable order = true ->
  Order_objects_get o w = (w, Ok order).
Proof.
  intros Horder Hread. unfold Order_objects_get, query.
  rewrite (objects_get_rows _ _ _ Horder), (read_Orders_one _ Hread).
  now rewrite Horder.
Qed.

Lemma Order_objects_get_inv (w : World) (o : Z) (order : Order) :
  snd (Order_objects_get o w) = Ok order ->
  objects_get (fun x => Order_id x =? o) (orders (db w)) = Ok order
  /\ readable order = true.
Proof.
  unfold Order_objects_get, query, read_Orders. cbn [snd].
  destruct (forallb readable _) eqn:Hall; [|discriminate].
  intros Horder. split; [assumption|].
  rewrite (objects_get_rows _ _ _ Horder) in Hall. cbn [forallb] in Hall.
  now apply andb_true_iff in Hall.
Qed.

Lemma Order_objects_get_reads (w : World) (o : Z) :
  fst (Order_objects_get o w) = w.
Proof. reflexivity. Qed.

Lemma truthy_Some (v : option Z) (o : Z) :
  truthy v = Some o -> v = Some o /\ o <> 0.
Proof.
  destruct v as [i|]; cbn; [|discriminate].
  destruct (Z.eqb_spec i 0); [discriminate|]. intros [= <-]. now split.
Qed.

Lemma truthy_bound (o : Z) : o <> 0 -> truthy (Some o) = Some o.
Proof. intros Ho. cbn. now destruct (Z.eqb_spec o 0). Qed.

(** ** The equations of [add_order_item] on a session that has an order *)

Section Bound.
Variables (w : World) (request : Request) (table_id menu_id item_id o q : Z).
Variables (item : Menu_Item) (menu : Menu) (order : Order).
Hypothesis Hs : session w = Some o.
Hypothesis Ho : o <> 0.
Hypothesis Hitem :
  objects_get (fun i => Menu_Item_id i =? item_id) (menu_items (db w)) = Ok item.
Hypothesis Hmenu :
  objects_get (fun m => Menu_id m =? menu_id) (menus (db w)) = Ok menu.
Hypothesis Horder :
  objects_get (fun x => Order_id x =? o) (orders (db w)) = Ok order.
Hypothesis Hread : readable order = true.
Hypothesis Hm : method request = POST.
Hypothesis Hq : POST_Quantity request = QInt q.
Hypothesis Hrange : in_integer_range q = true.

Lemma fetched_item_id : Menu_Item_id item = item_id.
Proof. apply objects_get_Ok_In in Hitem. now apply Z.eqb_eq. Qed.

Lemma fetched_order_id : Order_id order = o.
Proof. apply objects_get_Ok_In in Horder. now apply Z.eqb_eq. Qed.

(** The head of the view: the three lookups and the form. *)
Lemma add_order_item_head :
  add_order_item request table_id menu_id item_id w =
  (found <- attempt (Order_Item_objects_get order item) ;;
   order <- match found with
            | Ok existed_item =>
                let existed_item :=
                  set_Quantity existed_item (Quantity existed_item + q) in
                Order_Item_save existed_item ;;;
                ret (set_Total_Price order
                       (Total_Price order + Quantity existed_item * Price item))
            | Raise DoesNotExist =>
                Order_Item_insert order item q ;;;
                ret (set_Total_Price order (Total_Price order + q * Price item))
            | Raise e => raise e
            end ;;
   Order_save order (now request) ;;;
   ret (redirect_customer_menu table_id menu_id 0)) w.
Proof.
  unfold add_order_item.
  unfold bind at 1, Menu_Item_objects_get, query at 1. rewrite Hitem.
  unfold bind at 1, session_get.
  unfold bind at 1, Menu_objects_get, query at 1. rewrite Hmenu.
  rewrite Hs, (truthy_bound o Ho).
  unfold bind at 1. rewrite (Order_objects_get_stored w o order Horder Hread).
  rewrite Hm, Hq. cbn [OrderItemForm_is_valid]. now rewrite Hrange.
Qed.

Lemma add_order_item_new :
  filter (line_of o item_id) (order_items (db w)) = [] ->
  add_order_item request table_id menu_id item_id w =
  (mkWorld (save_Order (set_Total_Price order
                          (Total_Price order + q * Price item))
                       (now request)
                       (insert_Order_Item order item q (db w)))
           (session w),
   Ok (redirect_customer_menu table_id menu_id 0)).
Proof.
  intros Hnone. rewrite add_order_item_head.
  unfold bind, attempt, Order_Item_objects_get, query, objects_get.
  rewrite fetched_item_id, fetched_order_id.
  fold (line_of o item_id). rewrite Hnone.
  unfold Order_Item_insert. rewrite Hrange.
  unfold update, ret, Order_save, update. cbn [db session]. reflexivity.
Qed.

Lemma add_order_item_merge (r : Order_Item) :
  filter (line_of o item_id) (order_items (db w)) = [r] ->
  in_integer_range (Quantity r + q) = true ->
  add_order_item request table_id menu_id item_id w =
  (mkWorld (save_Order (set_Total_Price order
                          (Total_Price order + (Quantity r + q) * Price item))
                       (now request)
                       (save_Order_Item (set_Quantity r (Quantity r + q)) (db w)))
           (session w),
   Ok (redirect_customer_menu table_id menu_id 0)).
Proof.
  intros Hone Hsum. rewrite add_order_item_head.
  unfold bind, attempt, Order_Item_objects_get, query, objects_get.
  rewrite fetched_item_id, fetched_order_id.
  fold (line_of o item_id). rewrite Hone.
  unfold Order_Item_save. cbn [Quantity set_Quantity]. rewrite Hsum.
  unfold update, ret, Order_save, update. cbn [db session]. reflexivity.
Qed.

(** A merge that would take the line out of the column's range is not
    written: the view ends in [OverflowError] and the store is as it was. *)
Lemma add_order_item_overflow (r : Order_Item) :
  filter (line_of o item_id) (order_items (db w)) = [r] ->
  in_integer_range (Quantity r + q) = false ->
  add_order_item request table_id menu_id item_id w = (w, Raise OverflowError).
Proof.
  intros Hone Hsum. rewrite add_order_item_head.
  unfold bind, attempt, Order_Item_objects_get, query, objects_get.
  rewrite fetched_item_id, fetched_order_id.
  fold (line_of o item_id). rewrite Hone.
  unfold Order_Item_save. cbn [Quantity set_Quantity]. rewrite Hsum.
  reflexivity.
Qed.
End Bound.

Lemma objects_get_new_Order (d : DB) (table restaurant t : Z) :
  let o := new_Order table restaurant t d in
  objects_get (fun x => Order_id x =? Order_id o) (orders d ++ [o]) = Ok o.
Proof.
  intros o. unfold objects_get. rewrite filter_app.
  rewrite (filter_key_absent Order_id).
  - cbn [filter app]. now rewrite Z.eqb_refl.
  - apply fresh_id_not_in.
Qed.

Lemma add_order_item_unbound w request table_id menu_id item_id item menu table :
  truthy (session w) = None ->
  objects_get (fun i => Menu_Item_id i =? item_id) (menu_items (db w)) = Ok item ->
  objects_get (fun m => Menu_id m =? menu_id) (menus (db w)) = Ok menu ->
  objects_get (fun t => Table_id t =? table_id) (tables (db w)) = Ok table ->
  add_order_item request table_id menu_id item_id w =
  add_order_item request table_id menu_id item_id (open_order request table menu w).
Proof.
  intros Hs Hitem Hmenu Htable. unfold open_order. view_unfold.
  cbn [db session set_orders menu_items menus tables orders].
  rewrite Hitem, Hmenu, Hs, Htable.
  cbn [truthy]. change (Order_id (new_Order (Table_id table)
     (Menu_Restaurant_ID menu) (now request) (db w)))
    with (fresh_id (map Order_id (orders (db w)))).
  pose proof (fresh_id_positive (map Order_id (orders (db w)))) as Hpos.
  destruct (Z.eqb_spec (fresh_id (map Order_id (orders (db w)))) 0) as [E|_];
    [lia|].
  pose proof (objects_get_new_Order (db w) (Table_id table)
                (Menu_Restaurant_ID menu) (now request)) as Hget.
  cbv zeta in Hget. change (Order_id (new_Order (Table_id table)
     (Menu_Restaurant_ID menu) (now request) (db w)))
    with (fresh_id (map Order_id (orders (db w)))) in Hget.
  cbn [db session orders set_orders].
  rewrite (objects_get_rows _ _ _ Hget), Hget.
  rewrite read_Orders_one by reflexivity.
  reflexivity.
Qed.
(** ** What the store operations do to the line items and to the flags *)

Lemma filter_map_stable {A} (p : A -> bool) (f : A -> A) (l : list A) :
  (forall x, In x l -> p (f x) = p x) ->
  filter p (map f l) = map f (filter p l).
Proof.
  induction l as [|a l IH]; cbn [map filter]; intros H; [reflexivity|].
  rewrite (H a (or_introl eq_refl)).
  rewrite IH by (intros x Hx; apply H; now right).
  now destruct (p a).
Qed.

Lemma overwrite_outside {A} (key : A -> Z) (r' : A) (l : list A) :
  (forall x, In x l -> key x <> key r') -> overwrite key r' l = l.
Proof.
  intros H. unfold overwrite. rewrite <- (map_id l) at 2.
  apply map_ext_in. intros a Ha.
  destruct (Z.eqb_spec (key a) (key r')) as [E|_]; [|reflexivity].
  now apply H in Ha.
Qed.

Lemma save_Order_order_items (o : Order) (t : Z) (d : DB) :
  order_items (save_Order o t d) = order_items d.
Proof. unfold save_Order. now destruct existsb. Qed.

Lemma save_Order_quantities (o : Order) (t : Z) (d : DB) (o' j : Z) :
  quantities (save_Order o t d) o' j = quantities d o' j.
Proof. unfold quantities. now rewrite save_Order_order_items. Qed.

Lemma save_Order_stored (o : Order) (t : Z) (d : DB) :
  In (Order_id o) (map Order_id (orders d)) ->
  orders (save_Order o t d) = overwrite Order_id (set_Updated_At o t) (orders d).
Proof.
  intros HIn. unfold save_Order.
  replace (existsb _ _) with true; [reflexivity|].
  symmetry. apply existsb_exists. apply in_map_iff in HIn as (x & E & Hx).
  exists x. split; [assumption|now apply Z.eqb_eq].
Qed.

(** Saving a fetched order whose flags were not assigned leaves the key and
    the flags of every stored order as they were. *)
Lemma save_Order_status (o o' : Order) (t : Z) (d : DB) :
  NoDup (map Order_id (orders d)) -> In o (orders d) ->
  status_of o' = status_of o ->
  map status_of (orders (save_Order o' t d)) = map status_of (orders d).
Proof.
  intros ND HIn Hst. injection Hst as Hid Hsub Hcom.
  rewrite save_Order_stored by (rewrite Hid; now apply in_map).
  unfold overwrite. rewrite map_map. apply map_ext_in. intros x Hx.
  cbn [set_Updated_At Order_id].
  destruct (Z.eqb_spec (Order_id x) (Order_id o')) as [E|_]; [|reflexivity].
  assert (x = o) as -> by (apply (key_injective Order_id x o (orders d)); congruence).
  unfold status_of. cbn. congruence.
Qed.

Lemma insert_Order_Item_quantities order item q d o' j :
  quantities (insert_Order_Item order item q d) o' j =
  quantities d o' j ++
  (if (Order_id order =? o') && (Menu_Item_id item =? j) then [q] else []).
Proof.
  unfold quantities, insert_Order_Item. cbn [order_items set_order_items].
  rewrite filter_app, map_app. f_equal. cbn [filter].
  unfold line_of. cbn [Order_ID Item_ID].
  now destruct (_ && _).
Qed.

Lemma insert_Order_Item_keys order item q d :
  NoDup (map Order_Item_id (order_items d)) ->
  NoDup (map Order_Item_id (order_items (insert_Order_Item order item q d))).
Proof.
  intros ND. unfold insert_Order_Item. cbn [order_items set_order_items].
  rewrite map_app. now apply NoDup_snoc_fresh.
Qed.

Section Merge.
Variables (d : DB) (r : Order_Item) (q o i : Z).
Hypothesis ND : NoDup (map Order_Item_id (order_items d)).
Hypothesis Hone : filter (line_of o i) (order_items d) = [r].

Let r' := set_Quantity r (Quantity r + q).

Lemma merged_row_stored : In r (order_items d) /\ line_of o i r = true.
Proof. apply filter_In. rewrite Hone. now left. Qed.

Lemma save_Order_Item_stored :
  order_items (save_Order_Item r' d) = overwrite Order_Item_id r' (order_items d).
Proof.
  unfold save_Order_Item.
  rewrite (existsb_key_In Order_Item_id r); [reflexivity|].
  apply merged_row_stored.
Qed.

Lemma save_Order_Item_keys :
  NoDup (map Order_Item_id (order_items (save_Order_Item r' d))).
Proof. rewrite save_Order_Item_stored. now rewrite overwrite_keys. Qed.

Lemma save_Order_Item_filter (o' j : Z) :
  filter (line_of o' j) (order_items (save_Order_Item r' d)) =
  overwrite Order_Item_id r' (filter (line_of o' j) (order_items d)).
Proof.
  rewrite save_Order_Item_stored. unfold overwrite.
  apply filter_map_stable. intros x Hx.
  destruct (Z.eqb_spec (Order_Item_id x) (Order_Item_id r')) as [E|_];
    [|reflexivity].
  assert (x = r) as ->
    by (apply (key_injective Order_Item_id x r (order_items d));
        auto; apply merged_row_stored).
  reflexivity.
Qed.

Lemma save_Order_Item_quantities (o' j : Z) :
  quantities (save_Order_Item r' d) o' j =
  if (o' =? o) && (j =? i) then [Quantity r + q] else quantities d o' j.
Proof.
  unfold quantities. rewrite save_Order_Item_filter.
  destruct merged_row_stored as [HIn Hline].
  apply andb_true_iff in Hline as [Ho Hi].
  apply Z.eqb_eq in Ho, Hi.
  destruct (Z.eqb_spec o' o) as [->|No]; cbn [andb].
  - destruct (Z.eqb_spec j i) as [->|Ni].
    + rewrite Hone. unfold overwrite. cbn [map]. now rewrite Z.eqb_refl.
    + rewrite overwrite_outside; [reflexivity|].
      intros x Hx E. apply filter_In in Hx as [Hx Hl].
      assert (x = r) as ->
        by (apply (key_injective Order_Item_id x r (order_items d)); auto).
      apply andb_true_iff in Hl as [_ Hl]. apply Z.eqb_eq in Hl. congruence.
  - rewrite overwrite_outside; [reflexivity|].
    intros x Hx E. apply filter_In in Hx as [Hx Hl].
    assert (x = r) as ->
      by (apply (key_injective Order_Item_id x r (order_items d)); auto).
    apply andb_true_iff in Hl as [Hl _]. apply Z.eqb_eq in Hl. congruence.
Qed.
End Merge.

(** ** One accepted [add_order_item] on a session that has an order *)


Lemma status_keys (l l' : list Order) :
  map status_of l' = map status_of l -> map Order_id l' = map Order_id l.
Proof.
  intros H. apply (f_equal (map (fun s : Z * bool * bool => fst (fst s)))) in H.
  now rewrite !map_map in H.
Qed.

Lemma add_order_item_bound w request table_id menu_id item_id o q item menu order :
  session w = Some o -> o <> 0 ->
  objects_get (fun i => Menu_Item_id i =? item_id) (menu_items (db w)) = Ok item ->
  objects_get (fun m => Menu_id m =? menu_id) (menus (db w)) = Ok menu ->
  objects_get (fun x => Order_id x =? o) (orders (db w)) = Ok order ->
  readable order = true ->
  method request = POST -> POST_Quantity request = QInt q ->
  in_integer_range q = true ->
  in_integer_range (total_quantity (quantities (db w) o item_id) + q) = true ->
  NoDup (map Order_id (orders (db w))) ->
  NoDup (map Order_Item_id (order_items (db w))) ->
  (List.length (quantities (db w) o item_id) <= 1)%nat ->
  exists w',
    add_order_item request table_id menu_id item_id w
    = (w', Ok (redirect_customer_menu table_id menu_id 0))
    /\ session w' = Some o
    /\ same_catalogue (db w) (db w')
    /\ map status_of (orders (db w')) = map status_of (orders (db w))
    /\ NoDup (map Order_Item_id (order_items (db w')))
    /\ forall o' j,
         quantities (db w') o' j =
         if (o' =? o) && (j =? item_id)
         then [total_quantity (quantities (db w) o item_id) + q]
         else quantities (db w) o' j.
Proof.
  intros Hs Ho Hitem Hmenu Horder Hread Hm Hq Hrange Hsum NDo NDi Hlen.
  pose proof (fetched_item_id _ _ _ Hitem) as Eitem.
  pose proof (fetched_order_id _ _ _ Horder) as Eorder.
  destruct (objects_get_Ok_In _ _ _ Horder) as [Hstored _].
  unfold quantities in Hlen, Hsum. rewrite length_map in Hlen.
  destruct (filter (line_of o item_id) (order_items (db w)))
    as [|r [|r2 l]] eqn:Hrows; [| |cbn in Hlen; lia].
  - eexists. split;
      [exact (add_order_item_new w request table_id menu_id item_id o q item
                menu order Hs Ho Hitem Hmenu Horder Hread Hm Hq Hrange Hrows)|].
    cbn [db session]. repeat split.
    + assumption.
    + unfold save_Order, insert_Order_Item. now destruct existsb.
    + unfold save_Order, insert_Order_Item. now destruct existsb.
    + unfold save_Order, insert_Order_Item. now destruct existsb.
    + now apply (save_Order_status order _ _
                   (insert_Order_Item order item q (db w))).
    + rewrite save_Order_order_items. now apply insert_Order_Item_keys.
    + intros o' j. rewrite save_Order_quantities, insert_Order_Item_quantities.
      rewrite Eitem, Eorder, (Z.eqb_sym o o'), (Z.eqb_sym item_id j).
      destruct (Z.eqb_spec o' o) as [->|]; cbn [andb];
        [destruct (Z.eqb_spec j item_id) as [->|]|]; try apply app_nil_r.
      unfold quantities. rewrite Hrows. reflexivity.
  - cbn [map total_quantity fold_right] in Hsum. rewrite Z.add_0_r in Hsum.
    eexists. split;
      [exact (add_order_item_merge w request table_id menu_id item_id o q item
                menu order Hs Ho Hitem Hmenu Horder Hread Hm Hq Hrange r Hrows
                Hsum)|].
    cbn [db session]. repeat split.
    + assumption.
    + unfold save_Order, save_Order_Item. now repeat destruct existsb.
    + unfold save_Order, save_Order_Item. now repeat destruct existsb.
    + unfold save_Order, save_Order_Item. now repeat destruct existsb.
    + assert (orders (save_Order_Item (set_Quantity r (Quantity r + q)) (db w))
              = orders (db w)) as Esame
        by (unfold save_Order_Item; now destruct existsb).
      rewrite <- Esame.
      apply (save_Order_status order); rewrite ?Esame; auto.
    + rewrite save_Order_order_items.
      now apply (save_Order_Item_keys _ _ _ o item_id).
    + intros o' j. rewrite save_Order_quantities.
      rewrite (save_Order_Item_quantities _ _ _ o item_id) by assumption.
      unfold quantities. rewrite Hrows. cbn [map total_quantity fold_right].
      now rewrite Z.add_0_r.
Qed.

(** ** What an accepted [add_order_item] has found *)

Lemma is_Ok_inv {A} (r : Res A) : is_Ok r = true -> exists a, r = Ok a.
Proof. destruct r; [eauto|discriminate]. Qed.

(** On a session that has an order, the redirect is the answer only when
    the item, the menu and the order were fetched, the order was readable,
    and the quantity and the quantity of the line it makes are within the
    range of the column. *)
Lemma add_order_item_accepted_bound
    w request table_id menu_id item_id o q :
  session w = Some o -> o <> 0 ->
  method request = POST -> POST_Quantity request = QInt q ->
  (List.length (quantities (db w) o item_id) <= 1)%nat ->
  snd (add_order_item request table_id menu_id item_id w)
  = Ok (redirect_customer_menu table_id menu_id 0) ->
  exists item menu order,
    objects_get (fun i => Menu_Item_id i =? item_id) (menu_items (db w)) = Ok item
    /\ objects_get (fun m => Menu_id m =? menu_id) (menus (db w)) = Ok menu
    /\ objects_get (fun x => Order_id x =? o) (orders (db w)) = Ok order
    /\ readable order = true
    /\ in_integer_range q = true
    /\ in_integer_range (total_quantity (quantities (db w) o item_id) + q) = true.
Proof.
  intros Hs Ho Hm Hq Hlen.
  destruct (objects_get (fun i => Menu_Item_id i =? item_id)
                        (menu_items (db w))) as [item|e] eqn:Hitem;
    [|view_unfold; rewrite Hitem; discriminate].
  destruct (objects_get (fun m => Menu_id m =? menu_id) (menus (db w)))
    as [menu|e] eqn:Hmenu;
    [|view_unfold; rewrite Hitem, Hmenu; discriminate].
  destruct (Order_objects_get o w) as [w1 [order|e]] eqn:Hget.
  2:{ unfold add_order_item.
      unfold bind at 1, Menu_Item_objects_get, query at 1. rewrite Hitem.
      unfold bind at 1, session_get.
      unfold bind at 1, Menu_objects_get, query at 1. rewrite Hmenu.
      rewrite Hs, (truthy_bound o Ho). unfold bind at 1. rewrite Hget.
      discriminate. }
  destruct (Order_objects_get_inv w o order) as [Horder Hread];
    [now rewrite Hget|].
  destruct (in_integer_range q) eqn:Hrange.
  2:{ unfold add_order_item.
      unfold bind at 1, Menu_Item_objects_get, query at 1. rewrite Hitem.
      unfold bind at 1, session_get.
      unfold bind at 1, Menu_objects_get, query at 1. rewrite Hmenu.
      rewrite Hs, (truthy_bound o Ho). unfold bind at 1.
      rewrite (Order_objects_get_stored w o order Horder Hread).
      rewrite Hm, Hq. cbn [OrderItemForm_is_valid]. rewrite Hrange.
      discriminate. }
  intros Hacc. exists item, menu, order. repeat split; auto.
  unfold quantities in *. rewrite length_map in Hlen.
  destruct (filter (line_of o item_id) (order_items (db w)))
    as [|r [|r2 l]] eqn:Hrows; [| |cbn in Hlen; lia].
  - exact Hrange.
  - cbn [map total_quantity fold_right]. rewrite Z.add_0_r.
    destruct (in_integer_range (Quantity r + q)) eqn:Hsum; [reflexivity|].
    rewrite (add_order_item_overflow w request table_id menu_id item_id o q
               item menu order Hs Ho Hitem Hmenu Horder Hread Hm Hq Hrange r
               Hrows Hsum) in Hacc.
    discriminate.
Qed.


(** ** A sequence of [add_item] calls of one client *)



Lemma no_lines_of_fresh_order (d : DB) (i : Z) :
  Forall (fun r => In (Order_ID r) (map Order_id (orders d))) (order_items d) ->
  filter (line_of (fresh_id (map Order_id (orders d))) i) (order_items d) = [].
Proof.
  intros Hfk. induction Hfk as [|r rows Hr _ IH]; cbn [filter]; [reflexivity|].
  unfold line_of at 1.
  destruct (Z.eqb_spec (Order_ID r) (fresh_id (map Order_id (orders d))))
    as [E|_]; [|exact IH].
  rewrite E in Hr. now apply fresh_id_not_in in Hr.
Qed.


(** ** The line items after a sequence of calls *)




(** The same calls of a client who has no order yet. *)
Example add_item_sequence_from_scratch :
  Forall2 accepted demo_calls (snd (run_calls demo_calls (mkWorld demo_db None)))
  /\ quantities (db (fst (run_calls demo_calls (mkWorld demo_db None)))) 1 1 = [3]
  /\ quantities (db (fst (run_calls demo_calls (mkWorld demo_db None)))) 1 2 = [1]
  /\ quantities (db (fst (run_calls demo_calls (mkWorld demo_db None)))) 1 3 = [].
Proof. vm_compute. repeat split; repeat constructor. Qed.

(** ** The running total *)



(** After [order'.save()] the store holds the saved instance under its key. *)
Lemma save_Order_lookup (d : DB) (o t : Z) (order order' : Order) :
  objects_get (fun x => Order_id x =? o) (orders d) = Ok order ->
  Order_id order' = o ->
  objects_get (fun x => Order_id x =? o) (orders (save_Order order' t d))
  = Ok (set_Updated_At order' t).
Proof.
  intros Horder Eid.
  destruct (objects_get_Ok_In _ _ _ Horder) as [HIn Hk]. apply Z.eqb_eq in Hk.
  rewrite save_Order_stored by (rewrite Eid, <- Hk; now apply in_map).
  unfold objects_get in *. unfold overwrite.
  rewrite (filter_map_stable (fun x => Order_id x =? o)).
  - destruct (filter (fun x => Order_id x =? o) (orders d))
      as [|a [|b l]]; try discriminate.
    injection Horder as ->. cbn [map set_Updated_At Order_id].
    now rewrite Eid, Hk, Z.eqb_refl.
  - intros x _. cbn [set_Updated_At Order_id]. rewrite Eid.
    destruct (Order_id x =? o) eqn:E; [|exact E].
    cbn [set_Updated_At Order_id]. rewrite Eid. apply Z.eqb_refl.
Qed.

Lemma save_Order_frame (o : Order) (t : Z) (d : DB) :
  save_Order o t d = set_orders d (orders (save_Order o t d)).
Proof. unfold save_Order. now destruct existsb. Qed.

(** The running total that an accepted [add_order_item] stores: the
    requested quantity times the price is added for a new line, the whole
    new quantity of the line times the price for a line that existed. *)
Section Running_total.
Variables (w : World) (request : Request) (table_id menu_id item_id o q : Z).
Variables (item : Menu_Item) (menu : Menu) (order : Order).
Hypothesis Hs : session w = Some o.
Hypothesis Ho : o <> 0.
Hypothesis Hitem :
  objects_get (fun i => Menu_Item_id i =? item_id) (menu_items (db w)) = Ok item.
Hypothesis Hmenu :
  objects_get (fun m => Menu_id m =? menu_id) (menus (db w)) = Ok menu.
Hypothesis Horder :
  objects_get (fun x => Order_id x =? o) (orders (db w)) = Ok order.
Hypothesis Hread : readable order = true.
Hypothesis Hm : method request = POST.
Hypothesis Hq : POST_Quantity request = QInt q.
Hypothesis Hrange : in_integer_range q = true.

Lemma total_after_new_line :
  filter (line_of o item_id) (order_items (db w)) = [] ->
  objects_get (fun x => Order_id x =? o)
    (orders (db (fst (add_order_item request table_id menu_id item_id w))))
  = Ok (set_Updated_At
          (set_Total_Price order (Total_Price order + q * Price item))
          (now request)).
Proof.
  intros Hnone.
  rewrite (add_order_item_new w request table_id menu_id item_id o q item menu
             order Hs Ho Hitem Hmenu Horder Hread Hm Hq Hrange Hnone).
  cbn [fst db]. apply (save_Order_lookup _ _ _ order); [exact Horder|].
  exact (fetched_order_id _ _ _ Horder).
Qed.

Lemma total_after_merge (r : Order_Item) :
  filter (line_of o item_id) (order_items (db w)) = [r] ->
  in_integer_range (Quantity r + q) = true ->
  objects_get (fun x => Order_id x =? o)
    (orders (db (fst (add_order_item request table_id menu_id item_id w))))
  = Ok (set_Updated_At
          (set_Total_Price order
             (Total_Price order + (Quantity r + q) * Price item))
          (now request)).
Proof.
  intros Hone Hsum.
  rewrite (add_order_item_merge w request table_id menu_id item_id o q item
             menu order Hs Ho Hitem Hmenu Horder Hread Hm Hq Hrange r Hone Hsum).
  cbn [fst db]. apply (save_Order_lookup _ _ _ order).
  - unfold save_Order_Item. now destruct existsb.
  - exact (fetched_order_id _ _ _ Horder).
Qed.
End Running_total.

(** C1.  On the merge path the view adds the whole new quantity of the line,
    not the requested quantity, times the price: after A x 2 and A x 1 the
    order holds one line of 3 units worth 15.00, and its stored total is
    10.00 + 3 x 5.00 = 25.00. *)
Theorem merge_total_differs_from_lines :
  quantities (db two_adds_of_A) 1 1 = [3]
  /\ lines_total (db two_adds_of_A) 1 = 1500
  /\ stored_total (db two_adds_of_A) 1 = Some 2500.
Proof. vm_compute. repeat split. Qed.

(** ** The cart of a session without an order *)

(** C3.  On a session without an order [view_cart] never answers: whatever
    the request, it ends in an exception and writes nothing; a posted cart,
    and a viewed cart of a named menu, end in [UnboundLocalError], because
    [order] is assigned only when the session has an order. *)
Theorem view_cart_without_order_raises
    (request : Request) (table_id restaurant_id menu_id : Z) (d : DB) :
  fst (view_cart request table_id restaurant_id menu_id (mkWorld d None))
  = mkWorld d None
  /\ is_Ok (snd (view_cart request table_id restaurant_id menu_id
                   (mkWorld d None))) = false
  /\ (if match method request with POST => true | GET => negb (menu_id =? 0) end
      then snd (view_cart request table_id restaurant_id menu_id
                  (mkWorld d None)) = Raise UnboundLocalError
      else True).
Proof.
  view_unfold. cbn [session truthy db].
  destruct (method request); [destruct (menu_id =? 0)|];
    cbn [negb db session]; try now repeat split.
  destruct (objects_get (fun r => Restaurant_id r =? restaurant_id)
                        (restaurants d)) as [restaurant|e];
    [|now repeat split].
  destruct (filter (fun m => Menu_Restaurant_ID m =? Restaurant_id restaurant)
                   (menus d));
    now repeat split.
Qed.

(** ** The equations of [view_cart] and [view_order] on a stored order *)

Lemma mapM_cart_line (w : World) (rows : list Order_Item) :
  forallb (fun r => is_Ok (objects_get (fun i => Menu_Item_id i =? Item_ID r)
                                       (menu_items (db w)))) rows = true ->
  exists items, mapM cart_line rows w = (w, Ok items).
Proof.
  induction rows as [|r rows IH]; cbn [forallb mapM]; intros H.
  - now exists [].
  - apply andb_true_iff in H as [Hr Hrows].
    apply is_Ok_inv in Hr as [item Hr]. destruct (IH Hrows) as [items Hitems].
    exists (mkCartLine (Item_Name item) (Quantity r) (Price item * Quantity r)
            :: items).
    unfold cart_line, bind, Menu_Item_objects_get, query, ret in *.
    rewrite Hr, Hitems. reflexivity.
Qed.

(** An answer that rearranges the rows of a query answers one row, and no
    row, as they are. *)
Lemma rearranges_none (answer : list Order -> list Order) :
  rearranges answer -> answer [] = [].
Proof. intros H. apply Permutation_nil. apply Permutation_sym, H. Qed.

Lemma rearranges_one (answer : list Order -> list Order) (x : Order) :
  rearranges answer -> answer [x] = [x].
Proof. intros H. apply Permutation_length_1_inv. apply Permutation_sym, H. Qed.

Lemma rearranges_In (answer : list Order -> list Order) (rows : list Order)
      (x : Order) :
  rearranges answer -> In x (answer rows) <-> In x rows.
Proof.
  intros H. split; apply Permutation_in; [apply H|apply Permutation_sym, H].
Qed.

Lemma in_table_order_rearranges : rearranges in_table_order.
Proof. intros rows. apply Permutation_refl. Qed.

Lemma insert_by_restaurant_perm (o : Order) (rows : list Order) :
  Permutation (insert_by_restaurant o rows) (o :: rows).
Proof.
  induction rows as [|x rows IH]; cbn [insert_by_restaurant]; [reflexivity|].
  destruct (Restaurant_ID o <=? Restaurant_ID x); [reflexivity|].
  rewrite IH. apply perm_swap.
Qed.

Lemma by_restaurant_index_rearranges : rearranges by_restaurant_index.
Proof.
  intros rows. unfold by_restaurant_index.
  induction rows as [|o rows IH]; cbn [fold_right]; [reflexivity|].
  rewrite insert_by_restaurant_perm. now constructor.
Qed.

Section Stored_order.
Variables (w : World) (request : Request) (o : Z) (order : Order).
Hypothesis Ho : o <> 0.
Hypothesis Horder :
  objects_get (fun x => Order_id x =? o) (orders (db w)) = Ok order.
Hypothesis Hread : readable order = true.
Hypothesis Hlines : lines_resolvable (db w) o = true.
Hypothesis Hpost : method request = POST.

(** [submit]: the cart is posted. *)
Lemma view_cart_post (table_id restaurant_id menu_id : Z) :
  session w = Some o ->
  view_cart request table_id restaurant_id menu_id w =
  (mkWorld (save_Order (set_Customer_Submitted order true) (now request) (db w))
           (session w),
   Ok (redirect_customer_menu table_id menu_id 0)).
Proof.
  intros Hs. destruct (mapM_cart_line w _ Hlines) as [items Hitems].
  unfold view_cart, bind at 1, session_get. rewrite Hs, (truthy_bound o Ho).
  unfold bind at 1. unfold bind at 1.
  rewrite (Order_objects_get_stored w o order Horder Hread).
  unfold bind at 1, Order_Item_objects_filter, query at 1.
  rewrite (fetched_order_id _ _ _ Horder). fold (lines_of (db w) o).
  unfold bind at 1. rewrite Hitems. unfold ret at 1. rewrite Hpost.
  unfold bind, local, ret, Order_save, update. cbn [db session].
  now rewrite Hs.
Qed.

(** [owner_complete]: the order page is posted by a logged-in user who
    owns a restaurant with a pending order. *)
Lemma view_order_post (answer : list Order -> list Order) (u : Z)
      (owner : Owner) (first : Order) (others : list Order) :
  user request = Some u ->
  objects_get (fun x => Owner_user x =? u) (owners (db w)) = Ok owner ->
  answer (pending_orders (db w) (Owner_Restaurants_all (db w) owner))
  = first :: others ->
  forallb readable (first :: others) = true ->
  view_order answer request o w =
  (mkWorld (save_Order (set_Completed_Status order true) (now request) (db w))
           (session w),
   Ok (redirect_view_order 0)).
Proof.
  intros Hu Howner Hpending Hall.
  destruct (mapM_cart_line w _ Hlines) as [items Hitems].
  unfold view_order. rewrite Hu.
  unfold bind at 1, Owner_objects_get, query at 1. rewrite Howner.
  unfold bind at 1, Order_objects_filter_pending, query at 1, read_Orders.
  rewrite Hpending, Hall.
  destruct (Z.eqb_spec o 0) as [|_]; [contradiction|].
  unfold bind at 1. unfold bind at 1.
  rewrite (Order_objects_get_stored w o order Horder Hread).
  unfold bind at 1, Order_Item_objects_filter, query at 1.
  rewrite (fetched_order_id _ _ _ Horder). fold (lines_of (db w) o).
  unfold bind at 1. rewrite Hitems. unfold ret at 1. rewrite Hpost.
  unfold bind, local, ret, Order_save, update. reflexivity.
Qed.
End Stored_order.

(** ** The owner's console on an order that is not pending *)

Lemma forallb_rearranged {A} (f : A -> bool) (l l' : list A) :
  Permutation l l' -> forallb f l = forallb f l'.
Proof.
  induction 1 as [|x l l' _ IH|x y l|l l' l'' _ IH1 _ IH2]; cbn [forallb].
  - reflexivity.
  - now rewrite IH.
  - now rewrite !andb_assoc, (andb_comm (f y) (f x)).
  - congruence.
Qed.

(** C4.  Order 1 is SUBMITTED and order 2 is still OPEN.  The owner's post for
    order 2 is answered with the redirect of a successful completion and
    order 2 is stored as completed, never having been submitted; posting
    for it once more is accepted again. *)
Theorem owner_complete_accepts_open_order :
  stored_lifecycle (db client_B_ordered) 1 = Some SUBMITTED
  /\ stored_lifecycle (db client_B_ordered) 2 = Some OPEN
  /\ snd (view_order in_table_order (post_as 7 13) 2
                     (mkWorld (db client_B_ordered) None))
     = Ok (redirect_view_order 0)
  /\ stored_status (db owner_7_completed_2) 2 = Some (2, false, true)
  /\ snd (view_order in_table_order (post_as 7 14) 2 owner_7_completed_2)
     = Ok (redirect_view_order 0).
Proof. vm_compute. repeat split. Qed.

(** The owner has one pending order, so the order in which the store
    answers plays no part in it. *)
Lemma owner_7_completed_2_whatever_answer (answer : list Order -> list Order) :
  rearranges answer ->
  view_order answer (post_as 7 13) 2 (mkWorld (db client_B_ordered) None)
  = (owner_7_completed_2, Ok (redirect_view_order 0))
  /\ snd (view_order answer (post_as 7 14) 2 owner_7_completed_2)
     = Ok (redirect_view_order 0).
Proof.
  intros H. split.
  - rewrite (view_order_post (mkWorld (db client_B_ordered) None) (post_as 7 13)
               2 (mkOrder 2 (Some 3) 2 12 12 false false 400)
               ltac:(discriminate) eq_refl eq_refl eq_refl eq_refl answer 7
               (mkOwner 1 7) (mkOrder 1 (Some 1) 1 10 11 false true 1000) []);
      try reflexivity.
    exact (rearranges_one answer _ H).
  - rewrite (view_order_post owner_7_completed_2 (post_as 7 14)
               2 (mkOrder 2 (Some 3) 2 12 13 true false 400)
               ltac:(discriminate) eq_refl eq_refl eq_refl eq_refl answer 7
               (mkOwner 1 7) (mkOrder 1 (Some 1) 1 10 11 false true 1000) []);
      try reflexivity.
    exact (rearranges_one answer _ H).
Qed.

(** C5.  The three views, run from a store without orders, reach a store in
    which an order is completed and not submitted. *)
Theorem completed_not_submitted_reachable :
  orders demo_db = []
  /\ exists x,
       In x (orders (db owner_7_completed_2))
       /\ Completed_Status x = true
       /\ Customer_Submitted x = false.
Proof.
  split; [reflexivity|].
  exists (mkOrder 2 (Some 3) 2 12 13 true false 400).
  vm_compute. repeat split. right. now left.
Qed.

(** C10, as stated, fails on an order that the store cannot read back: the
    total of order 2 is 100000000.00, user 7 has the pending order 1 and
    posts the page of order 2; the post ends in [InvalidOperation] when it
    fetches the order, which stays as it was. *)
Lemma owner_completes_no_wide_order :
  stored_status (db client_B_ordered_wide) 1 = Some (1, true, false)
  /\ stored_total (db client_B_ordered_wide) 2 = Some 10000000000
  /\ view_order in_table_order (post_as 7 13) 2
                (mkWorld (db client_B_ordered_wide) None)
     = (mkWorld (db client_B_ordered_wide) None, Raise InvalidOperation)
  /\ stored_status (db client_B_ordered_wide) 2 = Some (2, false, false).
Proof. vm_compute. repeat split. Qed.

(** C10, amended.  A logged-in owner who has at least one pending order,
    all of them readable, posts the order page with the key of any stored
    order that is readable and whose lines name stored items: the post is
    answered with the redirect and that order is then stored with
    [Completed_Status] true and every other column but [Updated_At] as it
    was, whatever its restaurant and its flags, and in whatever order the
    store answers the query for the pending orders. *)
Theorem owner_completes_any_stored_order
    (w : World) (request : Request) (answer : list Order -> list Order)
    (u order_id : Z) (owner : Owner) (order : Order) :
  user request = Some u ->
  method request = POST ->
  objects_get (fun x => Owner_user x =? u) (owners (db w)) = Ok owner ->
  rearranges answer ->
  pending_orders (db w) (Owner_Restaurants_all (db w) owner) <> [] ->
  Forall (fun x => Z.abs (Total_Price x) < 10 ^ 10)
         (pending_orders (db w) (Owner_Restaurants_all (db w) owner)) ->
  order_id <> 0 ->
  objects_get (fun x => Order_id x =? order_id) (orders (db w)) = Ok order ->
  Z.abs (Total_Price order) < 10 ^ 10 ->
  lines_resolvable (db w) order_id = true ->
  snd (view_order answer request order_id w) = Ok (redirect_view_order 0)
  /\ exists stored,
       objects_get (fun x => Order_id x =? order_id)
                   (orders (db (fst (view_order answer request order_id w))))
       = Ok stored
       /\ Completed_Status stored = true
       /\ Customer_Submitted stored = Customer_Submitted order
       /\ Total_Price stored = Total_Price order
       /\ Restaurant_ID stored = Restaurant_ID order
       /\ Table_ID stored = Table_ID order
       /\ Created_At stored = Created_At order
       /\ Updated_At stored = now request.
Proof.
  intros Hu Hpost Howner Hanswer Hsome Hall Hid Horder Hread Hlines.
  apply all_readable_width in Hall. apply readable_width in Hread.
  destruct (answer (pending_orders (db w) (Owner_Restaurants_all (db w) owner)))
    as [|first others] eqn:Hpending.
  { exfalso. apply Hsome. pose proof (Hanswer (pending_orders (db w)
      (Owner_Restaurants_all (db w) owner))) as Hp.
    rewrite Hpending in Hp. now apply Permutation_nil in Hp. }
  assert (forallb readable (first :: others) = true) as Hall'.
  { rewrite <- Hpending, <- Hall. apply forallb_rearranged.
    exact (Hanswer _). }
  rewrite (view_order_post w request order_id order Hid Horder Hread Hlines
             Hpost answer u owner first others Hu Howner Hpending Hall').
  cbn [fst snd db]. split; [reflexivity|].
  exists (set_Updated_At (set_Completed_Status order true) (now request)).
  split; [|now repeat split].
  apply (save_Order_lookup _ _ _ order); [assumption|].
  exact (fetched_order_id _ _ _ Horder).
Qed.

(** Order 2 is OPEN and belongs to the second restaurant; user 7 owns the
    first one. *)
Lemma owner_completes_any_stored_order_witness :
  snd (view_order by_restaurant_index (post_as 7 13) 2
                  (mkWorld (db client_B_ordered) None))
  = Ok (redirect_view_order 0)
  /\ exists stored,
       objects_get (fun x => Order_id x =? 2)
         (orders (db (fst (view_order by_restaurant_index (post_as 7 13) 2
                                      (mkWorld (db client_B_ordered) None)))))
       = Ok stored
       /\ Completed_Status stored = true
       /\ Customer_Submitted stored
          = Customer_Submitted (mkOrder 2 (Some 3) 2 12 12 false false 400)
       /\ Total_Price stored
          = Total_Price (mkOrder 2 (Some 3) 2 12 12 false false 400)
       /\ Restaurant_ID stored
          = Restaurant_ID (mkOrder 2 (Some 3) 2 12 12 false false 400)
       /\ Table_ID stored
          = Table_ID (mkOrder 2 (Some 3) 2 12 12 false false 400)
       /\ Created_At stored
          = Created_At (mkOrder 2 (Some 3) 2 12 12 false false 400)
       /\ Updated_At stored = now (post_as 7 13).
Proof.
  apply (owner_completes_any_stored_order
           (mkWorld (db client_B_ordered) None) (post_as 7 13)
           by_restaurant_index 7 2 (mkOwner 1 7)
           (mkOrder 2 (Some 3) 2 12 12 false false 400));
    try reflexivity.
  - exact by_restaurant_index_rearranges.
  - vm_compute. discriminate.
  - apply Forall_forall. intros x Hx. vm_compute in Hx.
    destruct Hx as [<-|[]]. reflexivity.
  - discriminate.
Defined.

(** ** [add_item] and the lifecycle *)







(** ** [submit] *)






(** The first post of the cart takes the order from OPEN to SUBMITTED, the
    second one leaves it there, with nothing but [Updated_At] changed. *)
Example submit_then_submit :
  stored_lifecycle (db client_A_ordered) 1 = Some OPEN
  /\ stored_lifecycle (db client_A_submitted) 1 = Some SUBMITTED
  /\ view_cart (post_cart 20) 1 1 1 client_A_submitted
     = (mkWorld (set_orders (db client_A_submitted)
                   [mkOrder 1 (Some 1) 1 10 20 false true 1000])
                (Some 1),
        Ok (redirect_customer_menu 1 1 0))
  /\ orders (db client_A_submitted)
     = [mkOrder 1 (Some 1) 1 10 11 false true 1000].
Proof. vm_compute. repeat split. Qed.

(** ** The quantity field *)




(** The same client posts 2 ^ 63, and a field that is not an integer. *)
Example quantity_field_refused :
  add_order_item (mkRequest POST (QInt (2 ^ 63)) None 10) 1 1 1 client_at_form
  = (client_at_form,
     Ok (render_add_order_item form_with_errors (mkMenu_Item 1 "A" "" 500 1)
                               1 1 1))
  /\ add_order_item (mkRequest POST QNotInt None 10) 1 1 1 client_at_form
     = (client_at_form,
        Ok (render_add_order_item form_with_errors (mkMenu_Item 1 "A" "" 500 1)
                                  1 1 1)).
Proof. vm_compute. split; reflexivity. Qed.

(** ** The owner's list of pending orders *)

Lemma forallb_filter {A} (f p : A -> bool) (l : list A) :
  forallb f l = true -> forallb f (filter p l) = true.
Proof.
  induction l as [|a l IH]; cbn [forallb filter]; [reflexivity|].
  intros H. apply andb_true_iff in H as [Ha Hl].
  destruct (p a); cbn [forallb]; rewrite ?Ha; auto.
Qed.

Lemma Owner_Restaurants_all_In (d : DB) (owner : Owner) (r : Restaurant) :
  In r (Owner_Restaurants_all d owner) <->
  exists ro, In ro (restaurant_owners d)
             /\ RO_Owner_ID ro = Owner_id owner
             /\ In r (restaurants d)
             /\ Restaurant_id r = RO_Restaurant_ID ro.
Proof.
  unfold Owner_Restaurants_all. rewrite in_flat_map. split.
  - intros (ro & Hro & Hr).
    destruct (Z.eqb_spec (RO_Owner_ID ro) (Owner_id owner)) as [E|_];
      [|contradiction].
    apply filter_In in Hr as [Hr Hid]. apply Z.eqb_eq in Hid. eauto 6.
  - intros (ro & Hro & E & Hr & Hid). exists ro. split; [assumption|].
    rewrite E, Z.eqb_refl. apply filter_In. split; [assumption|].
    now apply Z.eqb_eq.
Qed.

Lemma pending_orders_In (d : DB) (owner : Owner) (x : Order) :
  In x (pending_orders d (Owner_Restaurants_all d owner)) <->
  In x (orders d)
  /\ owns d owner (Restaurant_ID x)
  /\ Customer_Submitted x = true
  /\ Completed_Status x = false.
Proof.
  unfold pending_orders, owns. rewrite filter_In, !andb_true_iff,
    negb_true_iff, existsb_exists.
  split.
  - intros (Hx & ((r & Hr & Hid) & Hs) & Hc). repeat split; auto.
    apply Owner_Restaurants_all_In in Hr as (ro & Hro & E & Hr & Hrid).
    apply Z.eqb_eq in Hid. exists ro, r. auto.
  - intros (Hx & (ro & r & Hro & E & Hr & Hrid & Hid) & Hs & Hc).
    repeat split; auto. exists r. split; [|now apply Z.eqb_eq].
    apply Owner_Restaurants_all_In. eauto.
Qed.

Lemma filtered_keys_unique {A} (key : A -> Z) (keep : A -> bool)
      (rows : list A) (ND : NoDup (map key rows)) :
  NoDup (map key (filter keep rows)).
Proof.
  induction rows as [|a rows IH]; cbn [map filter] in *; [constructor|].
  inversion ND as [|? ? Hnotin ND']; subst.
  destruct (keep a); [|now apply IH].
  cbn [map]. constructor; [|now apply IH].
  intros HIn. apply Hnotin. apply in_map_iff in HIn as (x & E & Hx).
  apply filter_In in Hx as [Hx _]. rewrite <- E. now apply in_map.
Qed.

Lemma answered_keys_unique (answer : list Order -> list Order) (d : DB)
      (rs : list Restaurant) :
  rearranges answer ->
  NoDup (map Order_id (orders d)) ->
  NoDup (map Order_id (answer (pending_orders d rs))).
Proof.
  intros Hanswer ND.
  apply (Permutation_NoDup (l := map Order_id (pending_orders d rs))).
  - apply Permutation_map, Permutation_sym. exact (Hanswer _).
  - unfold pending_orders. now apply filtered_keys_unique.
Qed.

(** C8, as stated, fails on the ordering.  User 7 owns both restaurants;
    order 1 was created at 10 in the second one and order 2 at 20 in the
    first one, and both are pending.  A store that answers through the index
    on [Restaurant_ID] lists order 2 before order 1: the later order comes
    first. *)
Lemma owner_list_pending_not_by_creation :
  rearranges by_restaurant_index
  /\ map (fun x => (Order_id x, Restaurant_ID x, Created_At x))
         (orders two_kitchens)
     = [(1, 2, 10); (2, 1, 20)]
  /\ exists items active listed,
       view_order by_restaurant_index (get_as 7 30) 0 (mkWorld two_kitchens None)
       = (mkWorld two_kitchens None, Ok (render_view_order items active listed))
       /\ map Order_id listed = [2; 1]
       /\ map Created_At listed = [20; 10].
Proof.
  split; [exact by_restaurant_index_rearranges|]. split; [reflexivity|].
  do 3 eexists. vm_compute. repeat split.
Qed.

(** C8, amended.  The page that a logged-in owner views lists exactly the
    stored orders of the owner's restaurants that are submitted and not
    completed, each of them once, when all of these are readable.  The view
    asks for no ordering: the list comes in the order in which the store
    answers, whatever that is. *)
Theorem owner_list_pending_rows
    (w : World) (request : Request) (answer : list Order -> list Order)
    (u : Z) (owner : Owner) :
  user request = Some u ->
  method request = GET ->
  objects_get (fun x => Owner_user x =? u) (owners (db w)) = Ok owner ->
  rearranges answer ->
  NoDup (map Order_id (orders (db w))) ->
  all_lines_resolvable (db w) = true ->
  Forall (fun x => Z.abs (Total_Price x) < 10 ^ 10)
         (pending_orders (db w) (Owner_Restaurants_all (db w) owner)) ->
  exists items active listed,
    view_order answer request 0 w
    = (w, Ok (render_view_order items active listed))
    /\ (forall x,
          In x listed <->
          In x (orders (db w))
          /\ owns (db w) owner (Restaurant_ID x)
          /\ Customer_Submitted x = true
          /\ Completed_Status x = false)
    /\ NoDup (map Order_id listed).
Proof.
  intros Hu Hget Howner Hanswer ND Hlines Hall.
  apply all_readable_width in Hall.
  set (listed := answer (pending_orders (db w)
                           (Owner_Restaurants_all (db w) owner))).
  assert (forallb readable listed = true) as Hall'.
  { rewrite <- Hall. apply forallb_rearranged. exact (Hanswer _). }
  assert (forall x, In x listed -> In x (orders (db w))) as Hstored.
  { intros x Hx. unfold listed in Hx.
    apply (proj1 (rearranges_In answer _ x Hanswer)) in Hx.
    apply pending_orders_In in Hx. apply Hx. }
  assert (exists items active,
             view_order answer request 0 w
             = (w, Ok (render_view_order items active listed)))
    as (items & active & Hrun).
  { unfold view_order. rewrite Hu.
    unfold bind at 1, Owner_objects_get, query at 1. rewrite Howner.
    unfold bind at 1, Order_objects_filter_pending, query at 1, read_Orders.
    fold listed. rewrite Hall'.
    destruct listed as [|first others] eqn:Hlisted.
    - unfold bind, ret. rewrite Hget. now exists [], None.
    - cbn [Z.eqb].
      assert (In first (orders (db w))) as Hfirst
        by (apply Hstored; now left).
      assert (readable first = true) as Hread
        by (cbn [forallb] in Hall'; now apply andb_true_iff in Hall').
      destruct (mapM_cart_line w (lines_of (db w) (Order_id first)))
        as [items Hitems]; [now apply forallb_filter|].
      unfold bind at 1. unfold bind at 1.
      rewrite (Order_objects_get_stored w (Order_id first) first
                 (objects_get_unique Order_id first _ ND Hfirst) Hread).
      unfold bind at 1, Order_Item_objects_filter, query at 1.
      fold (lines_of (db w) (Order_id first)).
      unfold bind at 1. rewrite Hitems. unfold ret at 1. rewrite Hget.
      unfold ret. now exists items, (Some first). }
  exists items, active, listed. split; [assumption|]. split.
  - intros x. unfold listed. rewrite (rearranges_In answer _ x Hanswer).
    apply pending_orders_In.
  - now apply answered_keys_unique.
Qed.

Lemma owner_list_pending_rows_witness :
  exists items active listed,
    view_order by_restaurant_index (get_as 7 30) 0 (mkWorld two_kitchens None)
    = (mkWorld two_kitchens None, Ok (render_view_order items active listed))
    /\ (forall x,
          In x listed <->
          In x (orders (db (mkWorld two_kitchens None)))
          /\ owns (db (mkWorld two_kitchens None)) (mkOwner 1 7)
                  (Restaurant_ID x)
          /\ Customer_Submitted x = true
          /\ Completed_Status x = false)
    /\ NoDup (map Order_id listed).
Proof.
  apply (owner_list_pending_rows (mkWorld two_kitchens None) (get_as 7 30)
           by_restaurant_index 7 (mkOwner 1 7)); try reflexivity.
  - exact by_restaurant_index_rearranges.
  - vm_compute. repeat constructor; simpl; intuition discriminate.
  - apply Forall_forall. intros x Hx. vm_compute in Hx.
    destruct Hx as [<-|[<-|[]]]; reflexivity.
Defined.

(** A pending order that the store cannot read back hides the whole list:
    the page of user 7 is not rendered. *)
Example owner_list_pending_unreadable :
  view_order in_table_order (get_as 7 30) 0
    (mkWorld (set_orders demo_db
                [mkOrder 1 (Some 1) 1 10 11 false true 10000000000]) None)
  = (mkWorld (set_orders demo_db
                [mkOrder 1 (Some 1) 1 10 11 false true 10000000000]) None,
     Raise InvalidOperation).
Proof. reflexivity. Qed.

(** ** More on the three order views *)

(** A [DoesNotExist] that escapes [add_order_item] comes from one of the
    lookups at its head, before anything is written: the store and the
    session are as they were. *)
Theorem add_order_item_DoesNotExist_writes_nothing
    (w : World) (request : Request) (table_id menu_id item_id : Z) :
  snd (add_order_item request table_id menu_id item_id w) = Raise DoesNotExist ->
  fst (add_order_item request table_id menu_id item_id w) = w.
Proof.
  view_unfold. unfold read_Orders.
  destruct (objects_get (fun i => Menu_Item_id i =? item_id)
                        (menu_items (db w))) as [item|e]; [|reflexivity].
  destruct (objects_get (fun m => Menu_id m =? menu_id) (menus (db w)))
    as [menu|e]; [|reflexivity].
  destruct (truthy (session w)) as [id|].
  - destruct (forallb readable _); [|reflexivity].
    destruct (objects_get (fun o => Order_id o =? id) (orders (db w)))
      as [order|e]; [|reflexivity].
    destruct (method request); [discriminate|].
    destruct (OrderItemForm_is_valid (POST_Quantity request)) as [quantity|];
      [|discriminate].
    match goal with
    | |- context [objects_get ?p ?l] => destruct (objects_get p l) as [r|[]]
    end;
      try match goal with
          | |- context [in_integer_range ?x] => destruct (in_integer_range x)
          end;
      cbn [fst snd]; discriminate.
  - destruct (objects_get (fun t => Table_id t =? table_id) (tables (db w)))
      as [table|e]; [|reflexivity].
    cbn [db session orders order_items set_orders].
    destruct (method request); [discriminate|].
    destruct (OrderItemForm_is_valid (POST_Quantity request)) as [quantity|];
      [|discriminate].
    match goal with
    | |- context [objects_get ?p ?l] => destruct (objects_get p l) as [r|[]]
    end;
      try match goal with
          | |- context [in_integer_range ?x] => destruct (in_integer_range x)
          end;
      cbn [fst snd]; discriminate.
Qed.

Lemma add_order_item_DoesNotExist_writes_nothing_witness :
  fst (add_order_item (mkRequest POST (QInt 1) None 10) 1 1 99
                      (mkWorld demo_db None))
  = mkWorld demo_db None.
Proof.
  apply (add_order_item_DoesNotExist_writes_nothing (mkWorld demo_db None)
           (mkRequest POST (QInt 1) None 10) 1 1 99).
  reflexivity.
Defined.

(** On a session that has an order the view either answers a posted integer
    with the redirect, or leaves the store and the session as they were. *)
Lemma add_order_item_bound_cases
    (w : World) (request : Request) (table_id menu_id item_id o : Z) :
  truthy (session w) = Some o ->
  fst (add_order_item request table_id menu_id item_id w) = w
  \/ (snd (add_order_item request table_id menu_id item_id w)
      = Ok (redirect_customer_menu table_id menu_id 0)
      /\ method request = POST
      /\ exists q, POST_Quantity request = QInt q).
Proof.
  intros Ht. view_unfold. unfold read_Orders. rewrite Ht.
  destruct (objects_get (fun i => Menu_Item_id i =? item_id)
                        (menu_items (db w))) as [item|e]; [|now left].
  destruct (objects_get (fun m => Menu_id m =? menu_id) (menus (db w)))
    as [menu|e]; [|now left].
  destruct (forallb readable _); [|now left].
  destruct (objects_get (fun x => Order_id x =? o) (orders (db w)))
    as [order|e]; [|now left].
  destruct (method request); [now left|].
  destruct (POST_Quantity request) as [q|]; cbn [OrderItemForm_is_valid];
    [|now left].
  destruct (in_integer_range q); [|now left].
  match goal with
  | |- context [objects_get ?p ?l] => destruct (objects_get p l) as [r|[]]
  end;
    try match goal with
        | |- context [in_integer_range ?x] => destruct (in_integer_range x)
        end;
    cbn [fst snd]; try (now left); right; repeat split; eauto.
Qed.

Lemma keyed_on_bound_session
    (w : World) (request : Request) (table_id menu_id item_id o : Z) :
  truthy (session w) = Some o ->
  keyed (db w) ->
  keyed (db (fst (add_order_item request table_id menu_id item_id w))).
Proof.
  intros Ht Hk.
  destruct (add_order_item_bound_cases w request table_id menu_id item_id o Ht)
    as [->|(Hacc & Hm & q & Hq)]; [assumption|].
  destruct Hk as [NDo NDi Hu].
  apply truthy_Some in Ht as [Hs Ho].
  destruct (add_order_item_accepted_bound w request table_id menu_id item_id o
              q Hs Ho Hm Hq (Hu o item_id) Hacc)
    as (item & menu & order & Hitem & Hmenu & Horder & Hread & Hrange & Hsum).
  destruct (add_order_item_bound w request table_id menu_id item_id o q item
              menu order Hs Ho Hitem Hmenu Horder Hread Hm Hq Hrange Hsum NDo
              NDi (Hu o item_id))
    as (w' & Hrun & _ & _ & Hst & NDi' & Hq').
  rewrite Hrun. cbn [fst]. constructor.
  - now rewrite (status_keys _ _ Hst).
  - assumption.
  - intros o' j. rewrite Hq'. destruct (_ && _); [cbn; lia|apply Hu].
Qed.

(** Primary keys stay unique and no order gets two lines for one item,
    whatever the request and whether or not it is answered: the view inserts
    a line only after its lookup for the pair found none, so it keeps
    [unique_together] of [Order_Item] by itself. *)
Theorem add_order_item_keeps_unique_together
    (w : World) (request : Request) (table_id menu_id item_id : Z) :
  keyed (db w) ->
  keyed (db (fst (add_order_item request table_id menu_id item_id w))).
Proof.
  intros Hk. destruct (truthy (session w)) as [o|] eqn:Ht;
    [now apply (keyed_on_bound_session w request table_id menu_id item_id o)|].
  destruct (objects_get (fun i => Menu_Item_id i =? item_id)
                        (menu_items (db w))) as [item|e] eqn:Hitem;
    [|view_unfold; now rewrite Hitem].
  destruct (objects_get (fun m => Menu_id m =? menu_id) (menus (db w)))
    as [menu|e] eqn:Hmenu;
    [|view_unfold; now rewrite Hitem, Hmenu].
  destruct (objects_get (fun t => Table_id t =? table_id) (tables (db w)))
    as [table|e] eqn:Htable;
    [|view_unfold; now rewrite Hitem, Hmenu, Ht, Htable].
  rewrite (add_order_item_unbound w request table_id menu_id item_id item menu
             table Ht Hitem Hmenu Htable).
  apply (keyed_on_bound_session _ request table_id menu_id item_id
           (fresh_id (map Order_id (orders (db w))))).
  - unfold open_order, new_Order. cbn [session truthy Order_id].
    pose proof (fresh_id_positive (map Order_id (orders (db w)))) as Hpos.
    destruct (Z.eqb_spec (fresh_id (map Order_id (orders (db w)))) 0); [lia|].
    reflexivity.
  - destruct Hk as [NDo NDi Hu]. unfold open_order, new_Order.
    constructor; cbn [db orders order_items set_orders].
    + rewrite map_app. now apply NoDup_snoc_fresh.
    + assumption.
    + exact Hu.
Qed.

Lemma add_order_item_keeps_unique_together_witness :
  keyed (db (fst (add_order_item (mkRequest POST (QInt 1) None 12) 1 1 1
                                 client_A_submitted))).
Proof.
  apply (add_order_item_keeps_unique_together client_A_submitted
           (mkRequest POST (QInt 1) None 12) 1 1 1).
  constructor.
  - vm_compute. repeat constructor. simpl. tauto.
  - vm_compute. repeat constructor. simpl. tauto.
  - intros o i. unfold quantities, line_of. vm_compute order_items.
    cbn [filter Order_ID Item_ID].
    destruct ((1 =? o) && (1 =? i)); cbn; lia.
Defined.




Lemma cart_line_reads (r : Order_Item) (w : World) :
  fst (cart_line r w) = w.
Proof.
  unfold cart_line, bind, Menu_Item_objects_get, query, ret.
  now destruct (objects_get _ (menu_items (db w))).
Qed.

Lemma mapM_cart_line_reads (rows : list Order_Item) (w : World) :
  fst (mapM cart_line rows w) = w.
Proof.
  induction rows as [|r rows IH]; cbn [mapM]; [reflexivity|].
  unfold bind. pose proof (cart_line_reads r w) as Hr.
  destruct (cart_line r w) as [w1 [b|e]]; cbn [fst] in Hr; subst w1;
    [|reflexivity].
  destruct (mapM cart_line rows w) as [w' [items|e]]; cbn [fst] in *;
    now subst.
Qed.

Lemma mapM_cart_line_shows (w : World) (rows : list Order_Item) :
  forallb (fun r => is_Ok (objects_get (fun i => Menu_Item_id i =? Item_ID r)
                                       (menu_items (db w)))) rows = true ->
  exists items,
    mapM cart_line rows w = (w, Ok items)
    /\ Forall2 (shows (db w)) rows items.
Proof.
  induction rows as [|r rows IH]; cbn [forallb mapM]; intros H.
  - exists []. split; [reflexivity|constructor].
  - apply andb_true_iff in H as [Hr Hrows].
    apply is_Ok_inv in Hr as [item Hr].
    destruct (IH Hrows) as (items & Hitems & Hshow).
    exists (mkCartLine (Item_Name item) (Quantity r) (Price item * Quantity r)
            :: items).
    split.
    + unfold cart_line, bind, Menu_Item_objects_get, query, ret in *.
      rewrite Hr, Hitems. reflexivity.
    + constructor; [|assumption]. now exists item.
Qed.

(** The cart page of a session with a stored order that is readable, for a
    named menu: the page is rendered and nothing is written; it lists one
    entry per stored line of the order, in the store's order, each priced at
    the present catalogue price times the quantity, next to the total stored
    on the order. *)
Theorem view_cart_shows_lines
    (w : World) (request : Request) (table_id restaurant_id menu_id o : Z)
    (order : Order) :
  session w = Some o ->
  o <> 0 ->
  objects_get (fun x => Order_id x =? o) (orders (db w)) = Ok order ->
  Z.abs (Total_Price order) < 10 ^ 10 ->
  lines_resolvable (db w) o = true ->
  method request = GET ->
  menu_id <> 0 ->
  exists items,
    view_cart request table_id restaurant_id menu_id w
    = (w, Ok (render_view_cart items table_id restaurant_id menu_id
                               (Total_Price order) order))
    /\ Forall2 (shows (db w)) (lines_of (db w) o) items.
Proof.
  intros Hs Ho Horder Hread Hlines Hget Hmenu.
  apply readable_width in Hread.
  destruct (mapM_cart_line_shows w _ Hlines) as (items & Hitems & Hshow).
  exists items. split; [|assumption].
  unfold view_cart, bind at 1, session_get. rewrite Hs, (truthy_bound o Ho).
  unfold bind at 1. unfold bind at 1.
  rewrite (Order_objects_get_stored w o order Horder Hread).
  unfold bind at 1, Order_Item_objects_filter, query at 1.
  rewrite (fetched_order_id _ _ _ Horder). fold (lines_of (db w) o).
  unfold bind at 1. rewrite Hitems. unfold ret at 1. rewrite Hget.
  destruct (Z.eqb_spec menu_id 0) as [|_]; [contradiction|].
  reflexivity.
Qed.

Lemma view_cart_shows_lines_witness :
  exists items,
    view_cart (mkRequest GET QNotInt None 30) 1 1 1 two_adds_of_A
    = (two_adds_of_A,
       Ok (render_view_cart items 1 1 1
             (Total_Price (mkOrder 1 (Some 1) 1 10 11 false false 2500))
             (mkOrder 1 (Some 1) 1 10 11 false false 2500)))
    /\ Forall2 (shows (db two_adds_of_A)) (lines_of (db two_adds_of_A) 1) items.
Proof.
  apply (view_cart_shows_lines two_adds_of_A (mkRequest GET QNotInt None 30)
           1 1 1 1 (mkOrder 1 (Some 1) 1 10 11 false false 2500));
    try reflexivity; discriminate.
Defined.

(** The cart of an order that the store cannot read back is not shown. *)
Example view_cart_unreadable :
  view_cart (mkRequest GET QNotInt None 30) 1 1 1 client_A_added_wide
  = (client_A_added_wide, Raise InvalidOperation).
Proof. vm_compute. reflexivity. Qed.

(** Viewing the cart or the owner's order page writes nothing, whatever the
    session, the user, the arguments and the order in which the store
    answers, and whether or not a page is rendered. *)
Theorem page_views_write_nothing
    (w : World) (request : Request) (answer : list Order -> list Order)
    (table_id restaurant_id menu_id order_id : Z) :
  method request = GET ->
  fst (view_cart request table_id restaurant_id menu_id w) = w
  /\ fst (view_order answer request order_id w) = w.
Proof.
  intros Hget. split.
  - unfold view_cart, bind at 1, session_get.
    destruct (truthy (session w)) as [id|].
    + unfold bind at 1. unfold bind at 1.
      pose proof (Order_objects_get_reads w id) as Hread.
      destruct (Order_objects_get id w) as [w1 [order|e]]; cbn [fst] in Hread;
        subst w1; [|reflexivity].
      unfold bind at 1, Order_Item_objects_filter, query at 1.
      unfold bind at 1.
      pose proof (mapM_cart_line_reads
                    (filter (fun r => Order_ID r =? Order_id order)
                            (order_items (db w))) w) as Hlines.
      destruct (mapM cart_line _ w) as [w' [items|e]]; cbn [fst] in Hlines;
        subst w'; [|reflexivity].
      unfold ret at 1. rewrite Hget.
      view_unfold. destruct (menu_id =? 0); [|reflexivity].
      destruct (objects_get _ (restaurants (db w))) as [r|e]; [|reflexivity].
      now destruct (filter _ (menus (db w))).
    + unfold ret at 1. unfold bind at 1. rewrite Hget.
      view_unfold. destruct (menu_id =? 0); [|reflexivity].
      destruct (objects_get _ (restaurants (db w))) as [r|e]; [|reflexivity].
      now destruct (filter _ (menus (db w))).
  - unfold view_order. destruct (user request) as [u|]; [|reflexivity].
    unfold bind at 1, Owner_objects_get, query at 1.
    destruct (objects_get _ (owners (db w))) as [owner|e]; [|reflexivity].
    unfold bind at 1, Order_objects_filter_pending, query at 1.
    destruct (read_Orders _) as [[|first others]|e]; [| |reflexivity].
    + unfold bind, ret. now rewrite Hget.
    + unfold bind at 1. unfold bind at 1.
      match goal with
      | |- context [Order_objects_get ?id w] =>
          pose proof (Order_objects_get_reads w id) as Hread;
          destruct (Order_objects_get id w) as [w1 [order|e]]
      end; cbn [fst] in Hread; subst w1; [|reflexivity].
      unfold bind at 1, Order_Item_objects_filter, query at 1.
      unfold bind at 1.
      pose proof (mapM_cart_line_reads
                    (filter (fun r => Order_ID r =? Order_id order)
                            (order_items (db w))) w) as Hlines.
      destruct (mapM cart_line _ w) as [w' [items|e]]; cbn [fst] in Hlines;
        subst w'; [|reflexivity].
      unfold ret at 1. now rewrite Hget.
Qed.

Lemma page_views_write_nothing_witness :
  fst (view_cart (mkRequest GET QNotInt None 30) 1 1 0 client_B_ordered)
  = client_B_ordered
  /\ fst (view_order by_restaurant_index (mkRequest GET QNotInt None 30) 2
                     client_B_ordered)
     = client_B_ordered.
Proof.
  apply (page_views_write_nothing client_B_ordered
           (mkRequest GET QNotInt None 30) by_restaurant_index 1 1 0 2).
  reflexivity.
Defined.

(** An owner who has no pending order and posts a completion, for whatever
    order, is not answered: [order] is still the empty list, the assignment
    to its attribute raises, and nothing is written. *)
Theorem view_order_post_without_pending
    (w : World) (request : Request) (answer : list Order -> list Order)
    (u order_id : Z) (owner : Owner) :
  user request = Some u ->
  method request = POST ->
  objects_get (fun x => Owner_user x =? u) (owners (db w)) = Ok owner ->
  rearranges answer ->
  pending_orders (db w) (Owner_Restaurants_all (db w) owner) = [] ->
  view_order answer request order_id w = (w, Raise AttributeError).
Proof.
  intros Hu Hpost Howner Hanswer Hnone. unfold view_order. rewrite Hu.
  unfold bind at 1, Owner_objects_get, query at 1. rewrite Howner.
  unfold bind at 1, Order_objects_filter_pending, query at 1.
  rewrite Hnone, (rearranges_none answer Hanswer).
  unfold bind, ret, local, raise. now rewrite Hpost.
Qed.

(** User 8 owns the second restaurant, where nothing has been submitted. *)
Lemma view_order_post_without_pending_witness :
  view_order by_restaurant_index (post_as 8 13) 1 client_B_ordered
  = (client_B_ordered, Raise AttributeError).
Proof.
  apply (view_order_post_without_pending client_B_ordered (post_as 8 13)
           by_restaurant_index 8 1 (mkOwner 2 8));
    try reflexivity.
  exact by_restaurant_index_rearranges.
Defined.

Lemma filter_overwrite_dropped {A} (key : A -> Z) (p : A -> bool) (r' : A)
      (l : list A) :
  p r' = false ->
  filter p (overwrite key r' l)
  = filter (fun x => negb (key x =? key r')) (filter p l).
Proof.
  intros Hp. unfold overwrite.
  induction l as [|a l IH]; cbn [map filter]; [reflexivity|].
  destruct (Z.eqb_spec (key a) (key r')) as [E|E].
  - rewrite Hp, IH. destruct (p a); [|reflexivity].
    cbn [filter]. rewrite E, Z.eqb_refl. reflexivity.
  - rewrite IH. destruct (p a); [|reflexivity].
    cbn [filter]. destruct (Z.eqb_spec (key a) (key r')); [contradiction|].
    reflexivity.
Qed.

Lemma filter_other_keys {A} (key : A -> Z) (k : Z) (l : list A) :
  ~ In k (map key l) -> filter (fun x => negb (key x =? k)) l = l.
Proof.
  induction l as [|a l IH]; cbn [map filter In]; intros H; [reflexivity|].
  destruct (Z.eqb_spec (key a) k) as [E|_]; [exfalso; auto|].
  cbn [negb]. f_equal. apply IH. tauto.
Qed.

Lemma filter_rearranged {A} (f : A -> bool) (l l' : list A) :
  Permutation l l' -> Permutation (filter f l) (filter f l').
Proof.
  induction 1 as [|x l l' _ IH|x y l|l l' l'' _ IH1 _ IH2]; cbn [filter].
  - constructor.
  - destruct (f x); [now constructor|assumption].
  - destruct (f x), (f y); try reflexivity. apply perm_swap.
  - now transitivity (filter f l').
Qed.

(** The console's default post, with order id 0, completes the order that
    comes first in the store's answer to the query for the owner's pending
    orders, when these are readable: the post is answered with the
    redirect, that order is then stored with [Completed_Status] true, and
    the owner's pending orders are then the rest of the answer. *)
Theorem owner_completes_first_pending
    (w : World) (request : Request) (answer : list Order -> list Order)
    (u : Z) (owner : Owner) (first : Order) (others : list Order) :
  user request = Some u ->
  method request = POST ->
  objects_get (fun x => Owner_user x =? u) (owners (db w)) = Ok owner ->
  rearranges answer ->
  answer (pending_orders (db w) (Owner_Restaurants_all (db w) owner))
  = first :: others ->
  Forall (fun x => Z.abs (Total_Price x) < 10 ^ 10) (first :: others) ->
  NoDup (map Order_id (orders (db w))) ->
  lines_resolvable (db w) (Order_id first) = true ->
  snd (view_order answer request 0 w) = Ok (redirect_view_order 0)
  /\ (exists stored,
        objects_get (fun x => Order_id x =? Order_id first)
          (orders (db (fst (view_order answer request 0 w))))
        = Ok stored
        /\ Completed_Status stored = true
        /\ stored = set_Updated_At (set_Completed_Status first true)
                                   (now request))
  /\ Permutation
       (pending_orders (db (fst (view_order answer request 0 w)))
          (Owner_Restaurants_all (db (fst (view_order answer request 0 w)))
                                 owner))
       others.
Proof.
  intros Hu Hpost Howner Hanswer Hpending Hwidth ND Hlines.
  pose proof (all_readable_width _ Hwidth) as Hall.
  assert (Permutation (pending_orders (db w)
                         (Owner_Restaurants_all (db w) owner))
                      (first :: others)) as Hperm.
  { rewrite <- Hpending. apply Permutation_sym. exact (Hanswer _). }
  assert (In first (orders (db w))) as Hfirst.
  { assert (In first (pending_orders (db w)
                        (Owner_Restaurants_all (db w) owner))) as HIn
      by (apply (Permutation_in _ (Permutation_sym Hperm)); now left).
    apply pending_orders_In in HIn. apply HIn. }
  pose proof (objects_get_unique Order_id first _ ND Hfirst) as Horder.
  assert (readable first = true) as Hread
    by (cbn [forallb] in Hall; now apply andb_true_iff in Hall).
  assert (view_order answer request 0 w
          = (mkWorld (save_Order (set_Completed_Status first true)
                                 (now request) (db w)) (session w),
             Ok (redirect_view_order 0))) as Hrun.
  { destruct (mapM_cart_line w _ Hlines) as [items Hitems].
    unfold view_order. rewrite Hu.
    unfold bind at 1, Owner_objects_get, query at 1. rewrite Howner.
    unfold bind at 1, Order_objects_filter_pending, query at 1, read_Orders.
    rewrite Hpending, Hall. cbn [Z.eqb].
    unfold bind at 1. unfold bind at 1.
    rewrite (Order_objects_get_stored w (Order_id first) first Horder Hread).
    unfold bind at 1, Order_Item_objects_filter, query at 1.
    fold (lines_of (db w) (Order_id first)).
    unfold bind at 1. rewrite Hitems. unfold ret at 1. rewrite Hpost.
    unfold bind, local, ret, Order_save, update. reflexivity. }
  rewrite Hrun. cbn [fst snd db]. split; [reflexivity|]. split.
  - eexists. split; [|split; [|reflexivity]]; [|reflexivity].
    now apply (save_Order_lookup _ _ _ first).
  - assert (Owner_Restaurants_all
              (save_Order (set_Completed_Status first true) (now request) (db w))
              owner
            = Owner_Restaurants_all (db w) owner) as ->
      by (unfold save_Order, Owner_Restaurants_all; now destruct existsb).
    unfold pending_orders in *.
    rewrite save_Order_stored by (exact (in_map Order_id _ first Hfirst)).
    rewrite filter_overwrite_dropped
      by (cbn [set_Updated_At set_Completed_Status Completed_Status negb];
          apply andb_false_r).
    cbn [set_Updated_At set_Completed_Status Order_id].
    rewrite (filter_rearranged _ _ _ Hperm). cbn [filter].
    rewrite Z.eqb_refl. cbn [negb].
    rewrite filter_other_keys; [reflexivity|].
    pose proof (filtered_keys_unique Order_id
                  (fun o => existsb (fun r => Restaurant_id r =? Restaurant_ID o)
                                    (Owner_Restaurants_all (db w) owner)
                            && Customer_Submitted o
                            && negb (Completed_Status o))
                  _ ND) as ND'.
    apply (Permutation_NoDup (Permutation_map Order_id Hperm)) in ND'.
    cbn [map] in ND'. now inversion ND'.
Qed.

(** User 7 owns both restaurants of [two_kitchens]; the store answers order 2
    before order 1, and order 2 is the one that is completed. *)
Lemma owner_completes_first_pending_witness :
  snd (view_order by_restaurant_index (post_as 7 30) 0 (mkWorld two_kitchens None))
  = Ok (redirect_view_order 0)
  /\ (exists stored,
        objects_get
          (fun x => Order_id x
                    =? Order_id (mkOrder 2 (Some 1) 1 20 21 false true 500))
          (orders (db (fst (view_order by_restaurant_index (post_as 7 30) 0
                                       (mkWorld two_kitchens None)))))
        = Ok stored
        /\ Completed_Status stored = true
        /\ stored = set_Updated_At
                      (set_Completed_Status
                         (mkOrder 2 (Some 1) 1 20 21 false true 500) true)
                      (now (post_as 7 30)))
  /\ Permutation
       (pending_orders
          (db (fst (view_order by_restaurant_index (post_as 7 30) 0
                               (mkWorld two_kitchens None))))
          (Owner_Restaurants_all
             (db (fst (view_order by_restaurant_index (post_as 7 30) 0
                                  (mkWorld two_kitchens None))))
             (mkOwner 1 7)))
       [mkOrder 1 (Some 3) 2 10 11 false true 400].
Proof.
  apply (owner_completes_first_pending (mkWorld two_kitchens None)
           (post_as 7 30) by_restaurant_index 7 (mkOwner 1 7)
           (mkOrder 2 (Some 1) 1 20 21 false true 500)
           [mkOrder 1 (Some 3) 2 10 11 false true 400]);
    try reflexivity.
  - exact by_restaurant_index_rearranges.
  - repeat constructor.
  - vm_compute. repeat constructor; simpl; intuition discriminate.
Defined.

Lemma no_rows_of_fresh_order (d : DB) :
  Forall (fun r => In (Order_ID r) (map Order_id (orders d))) (order_items d) ->
  filter (fun r => Order_ID r =? fresh_id (map Order_id (orders d)))
         (order_items d) = [].
Proof.
  intros Hfk. induction Hfk as [|r rows Hr _ IH]; cbn [filter]; [reflexivity|].
  destruct (Z.eqb_spec (Order_ID r) (fresh_id (map Order_id (orders d))))
    as [E|_]; [|exact IH].
  rewrite E in Hr. now apply fresh_id_not_in in Hr.
Qed.

(** From the table to the kitchen: a client without an order posts one
    [add_item], with a quantity within the range of the column and worth
    less than 100000000.00, and then posts the cart.  The order that was
    opened is then among the pending orders of every owner of the restaurant
    of the menu in the URL; it carries the table of the URL, whatever
    restaurant that table belongs to, holds the one line, and its total is
    the quantity times the price. *)
Theorem submitted_order_reaches_owner
    (d : DB) (c : Call) (t : Z) (table_id restaurant_id menu_id : Z)
    (table : Table) (menu : Menu) (item : Menu_Item) (owner : Owner) :
  well_keyed d ->
  objects_get (fun x => Table_id x =? call_table c) (tables d) = Ok table ->
  objects_get (fun m => Menu_id m =? call_menu c) (menus d) = Ok menu ->
  objects_get (fun i => Menu_Item_id i =? call_item c) (menu_items d) = Ok item ->
  owns d owner (Menu_Restaurant_ID menu) ->
  - 2 ^ 63 <= call_quantity c < 2 ^ 63 ->
  Z.abs (call_quantity c * Price item) < 10 ^ 10 ->
  snd (add_item c (mkWorld d None))
  = Ok (redirect_customer_menu (call_table c) (call_menu c) 0)
  /\ snd (view_cart (post_cart t) table_id restaurant_id menu_id
                    (fst (add_item c (mkWorld d None))))
     = Ok (redirect_customer_menu table_id menu_id 0)
  /\ exists order,
    In order
       (pending_orders
          (db (fst (view_cart (post_cart t) table_id restaurant_id menu_id
                              (fst (add_item c (mkWorld d None))))))
          (Owner_Restaurants_all
             (db (fst (view_cart (post_cart t) table_id restaurant_id menu_id
                                 (fst (add_item c (mkWorld d None))))))
             owner))
    /\ Restaurant_ID order = Menu_Restaurant_ID menu
    /\ Table_ID order = Some (Table_id table)
    /\ Total_Price order = call_quantity c * Price item
    /\ quantities
         (db (fst (view_cart (post_cart t) table_id restaurant_id menu_id
                             (fst (add_item c (mkWorld d None))))))
         (Order_id order) (call_item c)
       = [call_quantity c].
Proof.
  intros [NDo NDi Hfk] Htable Hmenu Hitem Howns Hbits Hwidth.
  pose proof (in_integer_range_bits _ Hbits) as Hrange.
  set (request := mkRequest POST (QInt (call_quantity c)) None (call_now c)).
  set (w0 := mkWorld d None).
  set (f := fresh_id (map Order_id (orders d))).
  set (new := new_Order (Table_id table) (Menu_Restaurant_ID menu)
                        (call_now c) d).
  set (wo := open_order request table menu w0).
  assert (f <> 0) as Hf
    by (pose proof (fresh_id_positive (map Order_id (orders d))); subst f; lia).
  assert (objects_get (fun x => Order_id x =? f) (orders (db wo)) = Ok new)
    as Hnew by (apply objects_get_new_Order).
  assert (readable new = true) as Hread0 by reflexivity.
  assert (filter (line_of f (call_item c)) (order_items (db wo)) = [])
    as Hrows by (exact (no_lines_of_fresh_order d (call_item c) Hfk)).
  unfold add_item. fold request. fold w0.
  rewrite (add_order_item_unbound w0 request _ _ _ item menu table eq_refl
             Hitem Hmenu Htable).
  fold wo.
  pose proof (total_after_new_line wo request (call_table c) (call_menu c)
                (call_item c) f (call_quantity c) item menu new eq_refl Hf
                Hitem Hmenu Hnew Hread0 eq_refl eq_refl Hrange Hrows) as Hget1.
  rewrite (add_order_item_new wo request (call_table c) (call_menu c)
             (call_item c) f (call_quantity c) item menu new eq_refl Hf
             Hitem Hmenu Hnew Hread0 eq_refl eq_refl Hrange Hrows) in *.
  cbn [fst db] in Hget1. cbn [fst snd]. split; [reflexivity|].
  set (order1 := set_Updated_At
                   (set_Total_Price new
                      (Total_Price new + call_quantity c * Price item))
                   (now request)) in *.
  set (d1 := save_Order
               (set_Total_Price new
                  (Total_Price new + call_quantity c * Price item))
               (now request)
               (insert_Order_Item new item (call_quantity c) (db wo))) in *.
  assert (readable order1 = true) as Hread1
    by (apply readable_width; exact Hwidth).
  assert (lines_resolvable d1 f = true) as Hlines.
  { unfold lines_resolvable, lines_of. subst d1.
    rewrite save_Order_order_items.
    replace (menu_items (save_Order _ _ _)) with (menu_items d)
      by (unfold save_Order; now destruct existsb).
    unfold insert_Order_Item, wo, open_order.
    cbn [db order_items set_order_items set_orders].
    rewrite filter_app. change (db w0) with d. unfold f.
    rewrite (no_rows_of_fresh_order d Hfk). fold f.
    cbn [app filter Order_ID new new_Order Order_id]. fold f.
    rewrite Z.eqb_refl. cbn [forallb Item_ID].
    rewrite (fetched_item_id (mkWorld d None) _ _ Hitem), Hitem. reflexivity. }
  rewrite (view_cart_post (mkWorld d1 (session wo)) (post_cart t) f order1 Hf
             Hget1 Hread1 Hlines eq_refl table_id restaurant_id menu_id eq_refl).
  cbn [fst snd db session]. split; [reflexivity|].
  pose proof (save_Order_lookup d1 f (now (post_cart t)) order1
                (set_Customer_Submitted order1 true) Hget1 eq_refl) as Hget2.
  set (d2 := save_Order (set_Customer_Submitted order1 true)
                        (now (post_cart t)) d1) in *.
  exists (set_Updated_At (set_Customer_Submitted order1 true)
                         (now (post_cart t))).
  split; [|split; [reflexivity|split; [reflexivity|split]]].
  - apply pending_orders_In. split; [now apply objects_get_Ok_In in Hget2|].
    split; [|now split].
    assert (restaurants d2 = restaurants d /\
            restaurant_owners d2 = restaurant_owners d) as [Er Eo].
    { subst d2 d1. rewrite save_Order_frame.
      rewrite (save_Order_frame _ _ (insert_Order_Item _ _ _ _)).
      now split. }
    destruct Howns as (ro & r & Hro & Eown & Hr & Erid & Eid).
    exists ro, r. rewrite Er, Eo. repeat split; auto.
  - cbn. lia.
  - subst d2 d1. rewrite !save_Order_quantities, insert_Order_Item_quantities.
    cbn [set_Updated_At set_Customer_Submitted set_Total_Price order1 new
         new_Order Order_id].
    fold f. unfold quantities. rewrite Hrows.
    rewrite (fetched_item_id (mkWorld d None) _ _ Hitem), !Z.eqb_refl.
    reflexivity.
Qed.

(** Table 1 stands in the first restaurant; the menu of the URL is the one
    of the second, and user 8 finds the order. *)
Lemma submitted_order_reaches_owner_witness :
  snd (add_item (mkCall 1 2 3 2 10) (mkWorld demo_db None))
  = Ok (redirect_customer_menu (call_table (mkCall 1 2 3 2 10))
                               (call_menu (mkCall 1 2 3 2 10)) 0)
  /\ snd (view_cart (post_cart 11) 1 2 2
                    (fst (add_item (mkCall 1 2 3 2 10) (mkWorld demo_db None))))
     = Ok (redirect_customer_menu 1 2 0)
  /\ exists order,
    In order
       (pending_orders
          (db (fst (view_cart (post_cart 11) 1 2 2
                              (fst (add_item (mkCall 1 2 3 2 10)
                                             (mkWorld demo_db None))))))
          (Owner_Restaurants_all
             (db (fst (view_cart (post_cart 11) 1 2 2
                                 (fst (add_item (mkCall 1 2 3 2 10)
                                                (mkWorld demo_db None))))))
             (mkOwner 2 8)))
    /\ Restaurant_ID order = Menu_Restaurant_ID (mkMenu 2 "Dinner" 2)
    /\ Table_ID order = Some (Table_id (mkTable 1 1))
    /\ Total_Price order
       = call_quantity (mkCall 1 2 3 2 10) * Price (mkMenu_Item 3 "C" "" 400 2)
    /\ quantities
         (db (fst (view_cart (post_cart 11) 1 2 2
                             (fst (add_item (mkCall 1 2 3 2 10)
                                            (mkWorld demo_db None))))))
         (Order_id order) (call_item (mkCall 1 2 3 2 10))
       = [call_quantity (mkCall 1 2 3 2 10)].
Proof.
  apply (submitted_order_reaches_owner demo_db (mkCall 1 2 3 2 10) 11 1 2 2
           (mkTable 1 1) (mkMenu 2 "Dinner" 2) (mkMenu_Item 3 "C" "" 400 2)
           (mkOwner 2 8)); try reflexivity.
  - constructor; simpl; constructor.
  - exists (mkRestaurant_Owner 2 2 0), (mkRestaurant 2 "South" 1).
    simpl. tauto.
  - simpl. lia.
Defined.

(** ** The table codes ([qr_code]) *)

Lemma with_tables_same (s : Site) : with_tables s (tables (store s)) = s.
Proof. destruct s as [d cats]. now destruct d. Qed.

Lemma repeat_times_Table_insert (n : nat) (r : Restaurant) (s : Site) :
  repeat_times n (Table_insert r) s
  = (with_tables s (topped_up n (tables (store s)) (Restaurant_id r)), Done tt).
Proof.
  revert s. induction n as [|n IH]; intros s; cbn [repeat_times topped_up].
  - unfold done. now rewrite with_tables_same.
  - unfold andthen, Table_insert at 1, write, site_store. rewrite IH.
    reflexivity.
Qed.

Lemma topped_up_appends (n : nat) (ts : list Table) (rid : Z) :
  exists created,
    topped_up n ts rid = ts ++ created
    /\ List.length created = n
    /\ Forall (fun t => Table_Restaurant_ID t = rid) created
    /\ (NoDup (map Table_id ts) -> NoDup (map Table_id (ts ++ created))).
Proof.
  revert ts. induction n as [|n IH]; intros ts; cbn [topped_up].
  - exists []. rewrite app_nil_r. repeat split; auto.
  - destruct (IH (ts ++ [mkTable (fresh_id (map Table_id ts)) rid]))
      as (created & E & Hlen & Hall & HND).
    exists (mkTable (fresh_id (map Table_id ts)) rid :: created).
    rewrite E, <- app_assoc. cbn [app List.length]. repeat split.
    + now rewrite Hlen.
    + constructor; [reflexivity|assumption].
    + intros ND. rewrite <- app_assoc in HND. apply HND.
      rewrite map_app. now apply NoDup_snoc_fresh.
Qed.

Lemma nth_error_skipn {A} (l : list A) (k : nat) (a : A) :
  nth_error l k = Some a -> skipn k l = a :: skipn (Datatypes.S k) l.
Proof.
  revert l. induction k as [|k IH]; intros [|b l]; cbn; try discriminate.
  - now intros [= ->].
  - intros H. now apply IH.
Qed.

Lemma links_for_each (rid : Z) (menu : Menu) (category : Menu_Category)
      (s : Site) (n k : nat) :
  (k + n <= List.length (tables_of (store s) rid))%nat ->
  for_each (fun i => andthen (table_at rid i)
                       (fun table => done (customer_link table menu category)))
           (seq k n) s
  = (s, Done (map (fun table => customer_link table menu category)
                  (firstn n (skipn k (tables_of (store s) rid))))).
Proof.
  revert k. induction n as [|n IH]; intros k Hlen; cbn [seq for_each].
  - reflexivity.
  - destruct (nth_error (tables_of (store s) rid) k) as [t|] eqn:Ht.
    + unfold andthen at 1. unfold andthen at 1, table_at, read. rewrite Ht.
      unfold done at 1. unfold andthen at 1. rewrite IH by lia.
      unfold done. rewrite (nth_error_skipn _ _ _ Ht). reflexivity.
    + apply nth_error_None in Ht. lia.
Qed.

Lemma filter_all {A} (p : A -> bool) (l : list A) :
  Forall (fun x => p x = true) l -> filter p l = l.
Proof.
  induction 1 as [|a l Ha _ IH]; cbn [filter]; [reflexivity|].
  now rewrite Ha, IH.
Qed.

Lemma tables_of_topped_up (d : DB) (n : nat) (rid : Z) :
  exists created,
    topped_up n (tables d) rid = tables d ++ created
    /\ List.length created = n
    /\ tables_of (set_tables d (topped_up n (tables d) rid)) rid
       = tables_of d rid ++ created
    /\ (forall other, other <> rid ->
          tables_of (set_tables d (topped_up n (tables d) rid)) other
          = tables_of d other)
    /\ (NoDup (map Table_id (tables d)) ->
        NoDup (map Table_id (topped_up n (tables d) rid))).
Proof.
  destruct (topped_up_appends n (tables d) rid) as (created & E & Hlen & Hall & ND).
  exists created. rewrite E. unfold tables_of. cbn [tables set_tables].
  repeat split; auto.
  - rewrite filter_app. f_equal. apply filter_all.
    eapply Forall_impl; [|exact Hall]. cbn. intros t ->. apply Z.eqb_refl.
  - intros other Hother. rewrite filter_app.
    rewrite <- (app_nil_r (filter _ (tables d))) at 2. f_equal.
    clear E Hlen ND.
    induction Hall as [|t l Ht _ IH]; cbn [filter]; [reflexivity|].
    rewrite Ht. destruct (Z.eqb_spec rid other); [congruence|exact IH].
Qed.

Section Codes.
Variables (request : OwnerRequest unit) (restaurant_id u : Z).
Variables (owner : Owner) (restaurant : Restaurant) (link : Restaurant_Owner).
Variable s : Site.
Hypothesis Huser : req_user request = Some u.
Hypothesis Howner :
  objects_get (fun o => Owner_user o =? u) (owners (store s)) = Ok owner.
Hypothesis Hrestaurant :
  objects_get (fun r => Restaurant_id r =? restaurant_id)
              (restaurants (store s)) = Ok restaurant.
Hypothesis Hlink :
  objects_get (fun ro => (RO_Owner_ID ro =? Owner_id owner)
                         && (RO_Restaurant_ID ro =? Restaurant_id restaurant))
              (restaurant_owners (store s)) = Ok link.

Let s' : Site :=
  with_tables s (topped_up (tables_missing (store s) restaurant)
                           (tables (store s)) (Restaurant_id restaurant)).

Lemma fetched_restaurant_id : Restaurant_id restaurant = restaurant_id.
Proof. apply objects_get_Ok_In in Hrestaurant. now apply Z.eqb_eq. Qed.

Lemma enough_tables :
  (Z.to_nat (Table_Amount restaurant)
   <= List.length (tables_of (store s') (Restaurant_id restaurant)))%nat.
Proof.
  destruct (tables_of_topped_up (store s) (tables_missing (store s) restaurant)
              (Restaurant_id restaurant)) as (created & _ & Hlen & E & _).
  unfold s', with_tables. cbn [store]. rewrite E, length_app, Hlen.
  unfold tables_missing. lia.
Qed.

Lemma qr_code_run :
  qr_code request restaurant_id s
  = (s', Done (page_qr_code restaurant (fst (codes_of s' restaurant))
                            (snd (codes_of s' restaurant)))).
Proof.
  pose proof fetched_restaurant_id as Eid. pose proof enough_tables as Hlen.
  unfold qr_code, login_required. rewrite Huser.
  unfold andthen at 1, Owner_of_user, read at 1, get_or_raise. rewrite Howner.
  unfold andthen at 1, Restaurant_or_404, read at 1, get_object_or_404.
  rewrite Hrestaurant.
  unfold andthen at 1, Restaurant_Owner_or_404, read at 1, get_object_or_404.
  rewrite Hlink.
  unfold andthen at 1, read at 1. unfold andthen at 1.
  assert ((if Z.of_nat (List.length (tables_of (store s) restaurant_id))
              <? Table_Amount restaurant
           then repeat_times
                  (Z.to_nat (Table_Amount restaurant
                             - Z.of_nat (List.length
                                           (tables_of (store s) restaurant_id))))
                  (Table_insert restaurant)
           else done tt) s = (s', Done tt)) as ->.
  { rewrite <- Eid. fold (tables_missing (store s) restaurant).
    destruct (Z.ltb_spec (Z.of_nat (List.length
                            (tables_of (store s) (Restaurant_id restaurant))))
                         (Table_Amount restaurant)) as [Hlt|Hge].
    - apply repeat_times_Table_insert.
    - unfold done, s'. replace (tables_missing (store s) restaurant) with O
        by (unfold tables_missing; lia).
      cbn [topped_up]. now rewrite with_tables_same. }
  unfold andthen at 1, read at 1. rewrite <- Eid. unfold codes_of.
  destruct (menus_of (store s') (Restaurant_id restaurant)) as [|menu ms];
    [reflexivity|].
  unfold andthen at 1, read at 1.
  destruct (categories_of s' (Menu_id menu)) as [|category cs]; [reflexivity|].
  unfold andthen at 1.
  rewrite (links_for_each (Restaurant_id restaurant) menu category s'
             (Z.to_nat (Table_Amount restaurant)) 0) by exact Hlen.
  reflexivity.
Qed.
End Codes.

(** An owner linked to the restaurant asks for its codes.  The view always
    answers with the page, never with [IndexError]: it first saves the
    tables the restaurant lacks to reach [Table_Amount], after every stored
    table and with new keys, so that the restaurant then has as many tables
    as it had or as [Table_Amount] says, whichever is more; no table is
    removed or changed, and the tables of other restaurants are the same. *)
Theorem qr_code_tops_up_tables
    (request : OwnerRequest unit) (restaurant_id u : Z) (owner : Owner)
    (restaurant : Restaurant) (link : Restaurant_Owner) (s : Site) :
  req_user request = Some u ->
  objects_get (fun o => Owner_user o =? u) (owners (store s)) = Ok owner ->
  objects_get (fun r => Restaurant_id r =? restaurant_id)
              (restaurants (store s)) = Ok restaurant ->
  objects_get (fun ro => (RO_Owner_ID ro =? Owner_id owner)
                         && (RO_Restaurant_ID ro =? Restaurant_id restaurant))
              (restaurant_owners (store s)) = Ok link ->
  exists created page,
    qr_code request restaurant_id s
    = (with_tables s (tables (store s) ++ created), Done page)
    /\ Forall (fun t => Table_Restaurant_ID t = restaurant_id) created
    /\ Z.of_nat (List.length
                   (tables_of (set_tables (store s) (tables (store s) ++ created))
                              restaurant_id))
       = Z.max (Z.of_nat (List.length (tables_of (store s) restaurant_id)))
               (Table_Amount restaurant)
    /\ (forall other, other <> restaurant_id ->
          tables_of (set_tables (store s) (tables (store s) ++ created)) other
          = tables_of (store s) other)
    /\ (NoDup (map Table_id (tables (store s))) ->
        NoDup (map Table_id (tables (store s) ++ created))).
Proof.
  intros Huser Howner Hrestaurant Hlink.
  pose proof (fetched_restaurant_id restaurant_id restaurant s Hrestaurant)
    as Eid.
  rewrite (qr_code_run request restaurant_id u owner restaurant link s
             Huser Howner Hrestaurant Hlink).
  destruct (tables_of_topped_up (store s) (tables_missing (store s) restaurant)
              (Restaurant_id restaurant))
    as (created & E & Hlen & Hof & Hother & ND).
  destruct (topped_up_appends (tables_missing (store s) restaurant)
              (tables (store s)) (Restaurant_id restaurant))
    as (created' & E' & _ & Hall & _).
  assert (created' = created) as -> by (rewrite E in E'; now apply app_inv_head in E').
  rewrite E in *. rewrite Eid in *.
  exists created. eexists. split; [reflexivity|]. repeat split; auto.
  rewrite Hof, length_app, Hlen. unfold tables_missing. rewrite Eid. lia.
Qed.

(** The first restaurant has its two tables and is set to five. *)
Lemma qr_code_tops_up_tables_witness :
  exists created page,
    qr_code (mkOwnerRequest GET (Some 7) None 50) 1 site_of_five
    = (with_tables site_of_five (tables (store site_of_five) ++ created),
       Done page)
    /\ Forall (fun t => Table_Restaurant_ID t = 1) created
    /\ Z.of_nat (List.length
                   (tables_of (set_tables (store site_of_five)
                                 (tables (store site_of_five) ++ created))
                              1))
       = Z.max (Z.of_nat (List.length (tables_of (store site_of_five) 1)))
               (Table_Amount (mkRestaurant 1 "North" 5))
    /\ (forall other, other <> 1 ->
          tables_of (set_tables (store site_of_five)
                       (tables (store site_of_five) ++ created)) other
          = tables_of (store site_of_five) other)
    /\ (NoDup (map Table_id (tables (store site_of_five))) ->
        NoDup (map Table_id (tables (store site_of_five) ++ created))).
Proof.
  apply (qr_code_tops_up_tables (mkOwnerRequest GET (Some 7) None 50) 1 7
           (mkOwner 1 7) (mkRestaurant 1 "North" 5)
           (mkRestaurant_Owner 1 1 0) site_of_five);
    reflexivity.
Defined.

(** When the restaurant has a menu and that menu a category, the page
    carries one address per table up to [Table_Amount], for the first tables
    of the restaurant in the store's order as the view leaves it.  The
    address of a table is the customer's URL of the site followed by the
    key of the table, [/menu/], the key of the first menu of the
    restaurant, and the key of the first category of that menu, all three
    in decimal. *)
Theorem qr_code_links
    (request : OwnerRequest unit) (restaurant_id u : Z) (owner : Owner)
    (restaurant : Restaurant) (link : Restaurant_Owner) (s : Site)
    (menu : Menu) (later_menus : list Menu)
    (category : Menu_Category) (later_categories : list Menu_Category) :
  req_user request = Some u ->
  objects_get (fun o => Owner_user o =? u) (owners (store s)) = Ok owner ->
  objects_get (fun r => Restaurant_id r =? restaurant_id)
              (restaurants (store s)) = Ok restaurant ->
  objects_get (fun ro => (RO_Owner_ID ro =? Owner_id owner)
                         && (RO_Restaurant_ID ro =? Restaurant_id restaurant))
              (restaurant_owners (store s)) = Ok link ->
  menus_of (store s) restaurant_id = menu :: later_menus ->
  categories_of s (Menu_id menu) = category :: later_categories ->
  snd (qr_code request restaurant_id s)
  = Done (page_qr_code restaurant
            (map (fun table =>
                    ("https://infs3202-2c7cb2f8.uqcloud.net/TableTap/customer/"
                     ++ DecimalString.NilZero.string_of_int
                          (Z.to_int (Table_id table))
                     ++ "/menu/"
                     ++ DecimalString.NilZero.string_of_int
                          (Z.to_int (Menu_id menu))
                     ++ "/"
                     ++ DecimalString.NilZero.string_of_int
                          (Z.to_int (Menu_Category_id category))
                     ++ "/")%string)
                 (firstn (Z.to_nat (Table_Amount restaurant))
                         (tables_of (store (fst (qr_code request restaurant_id s)))
                                    restaurant_id)))
            (Some menu))
  /\ List.length
       (firstn (Z.to_nat (Table_Amount restaurant))
               (tables_of (store (fst (qr_code request restaurant_id s)))
                          restaurant_id))
     = Z.to_nat (Table_Amount restaurant).
Proof.
  intros Huser Howner Hrestaurant Hlink Hmenu Hcategory.
  pose proof (fetched_restaurant_id restaurant_id restaurant s Hrestaurant)
    as Eid.
  subst restaurant_id.
  pose proof (enough_tables restaurant s) as Hlen.
  rewrite (qr_code_run request (Restaurant_id restaurant) u owner restaurant
             link s Huser Howner Hrestaurant Hlink).
  cbn [fst snd]. unfold codes_of.
  change (menus_of (store (with_tables s _)) (Restaurant_id restaurant))
    with (menus_of (store s) (Restaurant_id restaurant)).
  rewrite Hmenu.
  change (categories_of (with_tables s _) (Menu_id menu))
    with (categories_of s (Menu_id menu)).
  rewrite Hcategory. cbn [fst snd]. split; [reflexivity|].
  apply firstn_length_le. exact Hlen.
Qed.

(** The two tables of the first restaurant, its menu 1 and the category 1
    of that menu. *)
Lemma qr_code_links_witness :
  snd (qr_code (mkOwnerRequest GET (Some 7) None 50) 1 demo_site)
  = Done (page_qr_code (mkRestaurant 1 "North" 2)
            ["https://infs3202-2c7cb2f8.uqcloud.net/TableTap/customer/1/menu/1/1/";
             "https://infs3202-2c7cb2f8.uqcloud.net/TableTap/customer/2/menu/1/1/"]%string
            (Some (mkMenu 1 "Lunch" 1)))
  /\ List.length
       (firstn (Z.to_nat (Table_Amount (mkRestaurant 1 "North" 2)))
               (tables_of
                  (store (fst (qr_code (mkOwnerRequest GET (Some 7) None 50)
                                       1 demo_site)))
                  1))
     = Z.to_nat (Table_Amount (mkRestaurant 1 "North" 2)).
Proof.
  exact (qr_code_links (mkOwnerRequest GET (Some 7) None 50) 1 7 (mkOwner 1 7)
           (mkRestaurant 1 "North" 2) (mkRestaurant_Owner 1 1 0) demo_site
           (mkMenu 1 "Lunch" 1) [] (mkMenu_Category 1 "Mains" 1) []
           eq_refl eq_refl eq_refl eq_refl eq_refl eq_refl).
Defined.

(** Asking for the codes twice is the same as asking once: the second
    request finds the tables in place, saves nothing and answers as the
    first did.  This holds for every request, also a refused one. *)
Theorem qr_code_idempotent
    (request : OwnerRequest unit) (restaurant_id : Z) (s : Site) :
  qr_code request restaurant_id (fst (qr_code request restaurant_id s))
  = qr_code request restaurant_id s.
Proof.
  destruct (req_user request) as [u|] eqn:Huser;
    [|unfold qr_code, login_required; now rewrite Huser].
  destruct (objects_get (fun o => Owner_user o =? u) (owners (store s)))
    as [owner|e] eqn:Howner.
  2: { assert (fst (qr_code request restaurant_id s) = s) as ->; [|reflexivity].
       unfold qr_code, login_required. rewrite Huser.
       unfold andthen at 1, Owner_of_user, read at 1, get_or_raise.
       now rewrite Howner. }
  destruct (objects_get (fun r => Restaurant_id r =? restaurant_id)
                        (restaurants (store s))) as [restaurant|e]
    eqn:Hrestaurant.
  2: { assert (fst (qr_code request restaurant_id s) = s) as ->; [|reflexivity].
       unfold qr_code, login_required. rewrite Huser.
       unfold andthen at 1, Owner_of_user, read at 1, get_or_raise.
       rewrite Howner.
       unfold andthen at 1, Restaurant_or_404, read at 1, get_object_or_404.
       rewrite Hrestaurant. now destruct e. }
  destruct (objects_get
              (fun ro => (RO_Owner_ID ro =? Owner_id owner)
                         && (RO_Restaurant_ID ro =? Restaurant_id restaurant))
              (restaurant_owners (store s))) as [link|e] eqn:Hlink.
  2: { assert (fst (qr_code request restaurant_id s) = s) as ->; [|reflexivity].
       unfold qr_code, login_required. rewrite Huser.
       unfold andthen at 1, Owner_of_user, read at 1, get_or_raise.
       rewrite Howner.
       unfold andthen at 1, Restaurant_or_404, read at 1, get_object_or_404.
       rewrite Hrestaurant.
       unfold andthen at 1, Restaurant_Owner_or_404, read at 1,
         get_object_or_404.
       rewrite Hlink. now destruct e. }
  rewrite (qr_code_run request restaurant_id u owner restaurant link s
             Huser Howner Hrestaurant Hlink).
  cbn [fst].
  set (s' := with_tables s (topped_up (tables_missing (store s) restaurant)
                                      (tables (store s))
                                      (Restaurant_id restaurant))).
  rewrite (qr_code_run request restaurant_id u owner restaurant link s'
             Huser Howner Hrestaurant Hlink).
  assert (tables_missing (store s') restaurant = O) as ->.
  { pose proof (enough_tables restaurant s) as Hlen. fold s' in Hlen.
    unfold tables_missing. lia. }
  cbn [topped_up]. now rewrite with_tables_same.
Qed.

(** ** Authorisation of the catalogue views *)

(** The five views that check the [Restaurant_Owner] link refuse a logged-in
    owner who has no link to a stored restaurant: [add_menu] and [qr_code]
    for that restaurant, whether or not it has a menu, and [dashboard],
    [add_category] and [add_menu_item] for every stored menu of that
    restaurant.  The answer is "not found" and nothing is written, whatever
    the method and the posted form. *)
Theorem unlinked_owner_is_refused
    (s : Site) (u : Z) (owner : Owner) (restaurant : Restaurant)
    (m : Method) (t category_id : Z)
    (name : option string) (fields : option MenuItemFields) :
  objects_get (fun o => Owner_user o =? u) (owners (store s)) = Ok owner ->
  objects_get (fun r => Restaurant_id r =? Restaurant_id restaurant)
              (restaurants (store s)) = Ok restaurant ->
  objects_get (fun ro => (RO_Owner_ID ro =? Owner_id owner)
                         && (RO_Restaurant_ID ro =? Restaurant_id restaurant))
              (restaurant_owners (store s)) = Raise DoesNotExist ->
  add_menu (mkOwnerRequest m (Some u) name t) (Restaurant_id restaurant) s
  = (s, Fail Http404)
  /\ qr_code (mkOwnerRequest m (Some u) None t) (Restaurant_id restaurant) s
     = (s, Fail Http404)
  /\ forall menu,
       objects_get (fun x => Menu_id x =? Menu_id menu) (menus (store s))
       = Ok menu ->
       Menu_Restaurant_ID menu = Restaurant_id restaurant ->
       dashboard (mkOwnerRequest m (Some u) None t) (Menu_id menu) category_id s
       = (s, Fail Http404)
       /\ add_category (mkOwnerRequest m (Some u) name t) (Menu_id menu) s
          = (s, Fail Http404)
       /\ add_menu_item (mkOwnerRequest m (Some u) fields t) (Menu_id menu)
                        category_id s
          = (s, Fail Http404).
Proof.
  intros Howner Hrestaurant Hlink. split; [|split].
  - unfold add_menu. site_unfold. unfold get_or_raise, get_object_or_404.
    cbn [req_user]. cbv beta. now rewrite Howner, Hrestaurant, Hlink.
  - unfold qr_code. site_unfold. unfold get_or_raise, get_object_or_404.
    cbn [req_user]. cbv beta. now rewrite Howner, Hrestaurant, Hlink.
  - intros menu Hmenu Eid.
    unfold dashboard, add_category, add_menu_item.
    site_unfold. unfold get_or_raise, get_object_or_404.
    cbn [req_user]. cbv beta.
    rewrite Howner, Hmenu, Eid, Hrestaurant, Hlink. repeat split.
Qed.

(** User 7 has no link to the second restaurant. *)
Lemma unlinked_owner_is_refused_witness :
  add_menu (mkOwnerRequest POST (Some 7) (Some "Brunch"%string) 50)
           (Restaurant_id (mkRestaurant 2 "South" 1)) demo_site
  = (demo_site, Fail Http404)
  /\ qr_code (mkOwnerRequest POST (Some 7) None 50)
             (Restaurant_id (mkRestaurant 2 "South" 1)) demo_site
     = (demo_site, Fail Http404)
  /\ forall menu,
       objects_get (fun x => Menu_id x =? Menu_id menu) (menus (store demo_site))
       = Ok menu ->
       Menu_Restaurant_ID menu = Restaurant_id (mkRestaurant 2 "South" 1) ->
       dashboard (mkOwnerRequest POST (Some 7) None 50) (Menu_id menu) 0
                 demo_site
       = (demo_site, Fail Http404)
       /\ add_category (mkOwnerRequest POST (Some 7) (Some "Brunch"%string) 50)
                       (Menu_id menu) demo_site
          = (demo_site, Fail Http404)
       /\ add_menu_item (mkOwnerRequest POST (Some 7)
                           (Some (mkMenuItemFields "X" "" 100)) 50)
                        (Menu_id menu) 0 demo_site
          = (demo_site, Fail Http404).
Proof.
  apply (unlinked_owner_is_refused demo_site 7 (mkOwner 1 7)
           (mkRestaurant 2 "South" 1) POST 50 0
           (Some "Brunch"%string) (Some (mkMenuItemFields "X" "" 100)));
    reflexivity.
Defined.

(** The same on the pages of the menu "Dinner" of the second restaurant, and
    on a site where that restaurant has no menu. *)
Example unlinked_owner_is_refused_on_menu :
  dashboard (mkOwnerRequest GET (Some 7) None 50) 2 0 demo_site
  = (demo_site, Fail Http404)
  /\ add_category (mkOwnerRequest POST (Some 7) (Some "Brunch"%string) 50) 2
                  demo_site
     = (demo_site, Fail Http404)
  /\ add_menu (mkOwnerRequest POST (Some 7) (Some "Brunch"%string) 50) 2
              (mkSite (set_menus demo_db []) [])
     = (mkSite (set_menus demo_db []) [], Fail Http404)
  /\ qr_code (mkOwnerRequest GET (Some 7) None 50) 2
             (mkSite (set_menus demo_db []) [])
     = (mkSite (set_menus demo_db []) [], Fail Http404).
Proof. vm_compute. repeat split. Qed.

(** [add_menu_item] checks the owner against the restaurant of the menu in
    the URL and then takes the category of the URL as it is: the item is
    saved under any stored category, whatever menu that category belongs
    to, and is from then on among the items of that category. *)
Theorem add_menu_item_takes_any_category
    (s : Site) (request : OwnerRequest MenuItemFields) (u menu_id category_id : Z)
    (owner : Owner) (menu : Menu) (restaurant : Restaurant)
    (link : Restaurant_Owner) (category : Menu_Category)
    (fields : MenuItemFields) :
  req_user request = Some u ->
  req_method request = POST ->
  req_form request = Some fields ->
  objects_get (fun o => Owner_user o =? u) (owners (store s)) = Ok owner ->
  objects_get (fun x => Menu_id x =? menu_id) (menus (store s)) = Ok menu ->
  objects_get (fun r => Restaurant_id r =? Menu_Restaurant_ID menu)
              (restaurants (store s)) = Ok restaurant ->
  objects_get (fun ro => (RO_Owner_ID ro =? Owner_id owner)
                         && (RO_Restaurant_ID ro =? Restaurant_id restaurant))
              (restaurant_owners (store s)) = Ok link ->
  objects_get (fun c => Menu_Category_id c =? category_id) (menu_categories s)
  = Ok category ->
  snd (add_menu_item request menu_id category_id s)
  = Done (to_owner_menu menu_id 0)
  /\ items_of (store (fst (add_menu_item request menu_id category_id s)))
              category_id
     = items_of (store s) category_id
       ++ [mkMenu_Item (fresh_id (map Menu_Item_id (menu_items (store s))))
                       (field_Item_Name fields) (field_Description fields)
                       (field_Price fields) category_id]
  /\ menu_categories (fst (add_menu_item request menu_id category_id s))
     = menu_categories s.
Proof.
  intros Huser Hpost Hform Howner Hmenu Hrestaurant Hlink Hcategory.
  assert (Menu_Category_id category = category_id) as Eid
    by (apply objects_get_Ok_In in Hcategory; now apply Z.eqb_eq).
  unfold add_menu_item. site_unfold. unfold get_or_raise, get_object_or_404.
  cbv beta. rewrite Huser, Howner, Hmenu, Hrestaurant, Hlink, Hcategory, Hpost, Hform.
  cbn [fst snd]. split; [reflexivity|]. split; [|reflexivity].
  unfold items_of, site_store. cbn [store menu_items set_menu_items].
  rewrite filter_app. cbn [filter Category_ID]. rewrite Eid, Z.eqb_refl.
  reflexivity.
Qed.

(** User 7, of the first restaurant, names the menu of that restaurant and
    the category of the second restaurant's menu. *)
Lemma add_menu_item_takes_any_category_witness :
  snd (add_menu_item (mkOwnerRequest POST (Some 7)
                        (Some (mkMenuItemFields "X" "" 100)) 50)
                     1 2 demo_site)
  = Done (to_owner_menu 1 0)
  /\ items_of (store (fst (add_menu_item
                             (mkOwnerRequest POST (Some 7)
                                (Some (mkMenuItemFields "X" "" 100)) 50)
                             1 2 demo_site)))
              2
     = items_of (store demo_site) 2
       ++ [mkMenu_Item
             (fresh_id (map Menu_Item_id (menu_items (store demo_site))))
             (field_Item_Name (mkMenuItemFields "X" "" 100))
             (field_Description (mkMenuItemFields "X" "" 100))
             (field_Price (mkMenuItemFields "X" "" 100)) 2]
  /\ menu_categories (fst (add_menu_item
                             (mkOwnerRequest POST (Some 7)
                                (Some (mkMenuItemFields "X" "" 100)) 50)
                             1 2 demo_site))
     = menu_categories demo_site.
Proof.
  apply (add_menu_item_takes_any_category demo_site
           (mkOwnerRequest POST (Some 7) (Some (mkMenuItemFields "X" "" 100)) 50)
           7 1 2 (mkOwner 1 7) (mkMenu 1 "Lunch" 1) (mkRestaurant 1 "North" 2)
           (mkRestaurant_Owner 1 1 0) (mkMenu_Category 2 "Grill" 2)
           (mkMenuItemFields "X" "" 100));
    reflexivity.
Defined.

(** ** New restaurants and menus *)

Lemma Owner_Restaurants_all_grows (d : DB) (owner : Owner) (r : Restaurant)
      (t : Z) :
  Restaurant_id r = fresh_id (map Restaurant_id (restaurants d)) ->
  Forall (fun ro => In (RO_Restaurant_ID ro) (map Restaurant_id (restaurants d)))
         (restaurant_owners d) ->
  Owner_Restaurants_all
    (set_restaurant_owners
       (set_restaurants d (restaurants d ++ [r]))
       (restaurant_owners d
        ++ [mkRestaurant_Owner (Owner_id owner) (Restaurant_id r) t]))
    owner
  = Owner_Restaurants_all d owner ++ [r].
Proof.
  intros Eid Hfk. unfold Owner_Restaurants_all.
  cbn [restaurant_owners restaurants set_restaurant_owners set_restaurants].
  rewrite flat_map_app. cbn [flat_map RO_Owner_ID RO_Restaurant_ID].
  rewrite Z.eqb_refl, app_nil_r, filter_app.
  rewrite (filter_key_absent Restaurant_id)
    by (rewrite Eid; apply fresh_id_not_in).
  cbn [filter app]. rewrite Z.eqb_refl. f_equal.
  induction Hfk as [|ro ros Hro _ IH]; cbn [flat_map]; [reflexivity|].
  rewrite IH. f_equal.
  destruct (RO_Owner_ID ro =? Owner_id owner); [|reflexivity].
  rewrite filter_app. cbn [filter].
  destruct (Z.eqb_spec (Restaurant_id r) (RO_Restaurant_ID ro)) as [E|_];
    [|apply app_nil_r].
  rewrite <- E, Eid in Hro. now apply fresh_id_not_in in Hro.
Qed.

(** A logged-in user with an [Owner] row posts a valid restaurant form: the
    restaurant is saved with a new key and the posted fields, with a link to
    the owner, and the owner's profile page then lists the restaurants it
    listed before, followed by the new one. *)
Theorem add_restaurant_links_owner
    (s : Site) (request : OwnerRequest RestaurantFields)
    (later : OwnerRequest unit) (u : Z)
    (owner : Owner) (fields : RestaurantFields) :
  req_user request = Some u ->
  req_method request = POST ->
  req_form request = Some fields ->
  req_user later = Some u ->
  objects_get (fun o => Owner_user o =? u) (owners (store s)) = Ok owner ->
  Forall (fun ro => In (RO_Restaurant_ID ro)
                       (map Restaurant_id (restaurants (store s))))
         (restaurant_owners (store s)) ->
  snd (add_restaurant request s) = Done to_profile
  /\ snd (profile_view later (fst (add_restaurant request s)))
     = Done (page_profile_view u
               (Owner_Restaurants_all (store s) owner
                ++ [mkRestaurant
                      (fresh_id (map Restaurant_id (restaurants (store s))))
                      (field_Restaurant_Name fields)
                      (field_Table_Amount fields)])
               (menus (store s))).
Proof.
  intros Huser Hpost Hform Hlater Howner Hfk.
  unfold add_restaurant, profile_view. site_unfold. unfold get_or_raise.
  cbv beta. rewrite Huser, Hpost, Hform, Hlater.
  unfold site_store. cbn [store owners set_restaurants menu_categories].
  rewrite Howner. cbn [fst snd]. split; [reflexivity|].
  cbn [store owners set_restaurant_owners set_restaurants menus].
  rewrite Howner. cbn [snd]. f_equal. f_equal.
  exact (Owner_Restaurants_all_grows (store s) owner
           (mkRestaurant (fresh_id (map Restaurant_id (restaurants (store s))))
                         (field_Restaurant_Name fields)
                         (field_Table_Amount fields))
           (req_now request) eq_refl Hfk).
Qed.

Lemma add_restaurant_links_owner_witness :
  snd (add_restaurant (mkOwnerRequest POST (Some 7)
                         (Some (mkRestaurantFields "East" 3)) 50) demo_site)
  = Done to_profile
  /\ snd (profile_view (mkOwnerRequest GET (Some 7) None 51)
            (fst (add_restaurant
                    (mkOwnerRequest POST (Some 7)
                       (Some (mkRestaurantFields "East" 3)) 50) demo_site)))
     = Done (page_profile_view 7
               (Owner_Restaurants_all (store demo_site) (mkOwner 1 7)
                ++ [mkRestaurant
                      (fresh_id (map Restaurant_id
                                     (restaurants (store demo_site))))
                      (field_Restaurant_Name (mkRestaurantFields "East" 3))
                      (field_Table_Amount (mkRestaurantFields "East" 3))])
               (menus (store demo_site))).
Proof.
  apply (add_restaurant_links_owner demo_site
           (mkOwnerRequest POST (Some 7) (Some (mkRestaurantFields "East" 3)) 50)
           (mkOwnerRequest GET (Some 7) None 51)
           7 (mkOwner 1 7) (mkRestaurantFields "East" 3));
    try reflexivity.
  repeat constructor; simpl; tauto.
Defined.

(** The view saves the restaurant before it looks for the [Owner] row: a
    logged-in user without one, posting a valid form, is answered with the
    escaping [DoesNotExist], and the restaurant stays in the store with no
    owner linked to it. *)
Theorem add_restaurant_without_owner_row
    (s : Site) (request : OwnerRequest RestaurantFields) (u : Z)
    (fields : RestaurantFields) :
  req_user request = Some u ->
  req_method request = POST ->
  req_form request = Some fields ->
  objects_get (fun o => Owner_user o =? u) (owners (store s))
  = Raise DoesNotExist ->
  snd (add_restaurant request s) = Fail (Uncaught DoesNotExist)
  /\ restaurants (store (fst (add_restaurant request s)))
     = restaurants (store s)
       ++ [mkRestaurant (fresh_id (map Restaurant_id (restaurants (store s))))
                        (field_Restaurant_Name fields)
                        (field_Table_Amount fields)]
  /\ restaurant_owners (store (fst (add_restaurant request s)))
     = restaurant_owners (store s).
Proof.
  intros Huser Hpost Hform Howner.
  unfold add_restaurant. site_unfold. unfold get_or_raise. cbv beta.
  rewrite Huser, Hpost, Hform.
  unfold site_store. cbn [store owners set_restaurants menu_categories].
  rewrite Howner. repeat split.
Qed.

Lemma add_restaurant_without_owner_row_witness :
  snd (add_restaurant (mkOwnerRequest POST (Some 9)
                         (Some (mkRestaurantFields "East" 3)) 50) demo_site)
  = Fail (Uncaught DoesNotExist)
  /\ restaurants
       (store (fst (add_restaurant
                      (mkOwnerRequest POST (Some 9)
                         (Some (mkRestaurantFields "East" 3)) 50) demo_site)))
     = restaurants (store demo_site)
       ++ [mkRestaurant
             (fresh_id (map Restaurant_id (restaurants (store demo_site))))
             (field_Restaurant_Name (mkRestaurantFields "East" 3))
             (field_Table_Amount (mkRestaurantFields "East" 3))]
  /\ restaurant_owners
       (store (fst (add_restaurant
                      (mkOwnerRequest POST (Some 9)
                         (Some (mkRestaurantFields "East" 3)) 50) demo_site)))
     = restaurant_owners (store demo_site).
Proof.
  apply (add_restaurant_without_owner_row demo_site
           (mkOwnerRequest POST (Some 9) (Some (mkRestaurantFields "East" 3)) 50)
           9 (mkRestaurantFields "East" 3));
    reflexivity.
Defined.

(** A menu that a linked owner adds is on the page of the restaurant's
    menus, which anyone can open: [all_menus] then lists the menus the
    restaurant had, followed by the new one. *)
Theorem added_menu_is_listed
    (s : Site) (request : OwnerRequest string) (visitor : OwnerRequest unit)
    (u restaurant_id table_id : Z) (owner : Owner) (restaurant : Restaurant)
    (link : Restaurant_Owner) (name : string) :
  req_user request = Some u ->
  req_method request = POST ->
  req_form request = Some name ->
  objects_get (fun o => Owner_user o =? u) (owners (store s)) = Ok owner ->
  objects_get (fun r => Restaurant_id r =? restaurant_id)
              (restaurants (store s)) = Ok restaurant ->
  objects_get (fun ro => (RO_Owner_ID ro =? Owner_id owner)
                         && (RO_Restaurant_ID ro =? Restaurant_id restaurant))
              (restaurant_owners (store s)) = Ok link ->
  snd (add_menu request restaurant_id s) = Done to_profile
  /\ snd (all_menus visitor table_id restaurant_id
                    (fst (add_menu request restaurant_id s)))
     = Done (page_all_menus restaurant
               (menus_of (store s) restaurant_id
                ++ [mkMenu (fresh_id (map Menu_id (menus (store s)))) name
                           restaurant_id])
               table_id).
Proof.
  intros Huser Hpost Hform Howner Hrestaurant Hlink.
  pose proof (fetched_restaurant_id restaurant_id restaurant s Hrestaurant)
    as Eid.
  unfold add_menu, all_menus. site_unfold.
  unfold get_or_raise, get_object_or_404. cbv beta.
  rewrite Huser, Hrestaurant, Howner, Hlink, Hpost, Hform.
  cbn [fst snd]. split; [reflexivity|].
  unfold site_store. cbn [store restaurants set_menus].
  rewrite Hrestaurant. cbn [snd]. unfold menus_of. cbn [menus set_menus].
  rewrite filter_app. cbn [filter Menu_Restaurant_ID].
  rewrite Eid, Z.eqb_refl. reflexivity.
Qed.

Lemma added_menu_is_listed_witness :
  snd (add_menu (mkOwnerRequest POST (Some 7) (Some "Brunch"%string) 50) 1
                demo_site)
  = Done to_profile
  /\ snd (all_menus (mkOwnerRequest GET None None 51) 1 1
                    (fst (add_menu
                            (mkOwnerRequest POST (Some 7)
                               (Some "Brunch"%string) 50) 1 demo_site)))
     = Done (page_all_menus (mkRestaurant 1 "North" 2)
               (menus_of (store demo_site) 1
                ++ [mkMenu (fresh_id (map Menu_id (menus (store demo_site))))
                           "Brunch" 1])
               1).
Proof.
  apply (added_menu_is_listed demo_site
           (mkOwnerRequest POST (Some 7) (Some "Brunch"%string) 50)
           (mkOwnerRequest GET None None 51) 7 1 1 (mkOwner 1 7)
           (mkRestaurant 1 "North" 2) (mkRestaurant_Owner 1 1 0)
           "Brunch"%string);
    reflexivity.
Defined.

(** ** The menu page of a table *)

(** The page of a stored menu with category [0]: nothing is written, the
    categories listed are those of the menu, and the page shows the first of
    them with exactly the stored items of that category; a menu without
    categories gives a page without active category and without items. *)
Theorem customer_menu_default_category
    (s : Site) (request : OwnerRequest unit) (table_id menu_id : Z)
    (menu : Menu) (restaurant : Restaurant) :
  objects_get (fun x => Menu_id x =? menu_id) (menus (store s)) = Ok menu ->
  objects_get (fun r => Restaurant_id r =? Menu_Restaurant_ID menu)
              (restaurants (store s)) = Ok restaurant ->
  exists categories active items,
    customer_menu request table_id menu_id 0 s
    = (s, Done (page_menu_customer (req_user request) menu categories active
                                   items table_id restaurant))
    /\ (forall c, In c categories <->
                  In c (menu_categories s) /\ Menu_ID c = menu_id)
    /\ match active with
       | Some c =>
           (exists later, categories = c :: later)
           /\ forall i, In i items <->
                        In i (menu_items (store s))
                        /\ Category_ID i = Menu_Category_id c
       | None => categories = [] /\ items = []
       end.
Proof.
  intros Hmenu Hrestaurant.
  exists (categories_of s menu_id).
  unfold customer_menu, active_category_and_items. site_unfold.
  unfold get_or_raise, get_object_or_404. cbv beta. cbn [Z.eqb].
  rewrite Hmenu.
  assert (forall c, In c (categories_of s menu_id) <->
                    In c (menu_categories s) /\ Menu_ID c = menu_id) as Hcats.
  { intros c. unfold categories_of. rewrite filter_In.
    now rewrite Z.eqb_eq. }
  destruct (categories_of s menu_id) as [|first later] eqn:E.
  - exists None, []. rewrite Hrestaurant. split; [reflexivity|].
    split; [exact Hcats|]. now split.
  - exists (Some first), (items_of (store s) (Menu_Category_id first)).
    rewrite Hrestaurant. split; [reflexivity|]. split; [exact Hcats|].
    split; [now exists later|].
    intros i. unfold items_of. rewrite filter_In. now rewrite Z.eqb_eq.
Qed.

Lemma customer_menu_default_category_witness :
  exists categories active items,
    customer_menu (mkOwnerRequest (F:=unit) GET None None 50) 1 1 0 demo_site
    = (demo_site,
       Done (page_menu_customer
               (req_user (mkOwnerRequest (F:=unit) GET None None 50))
               (mkMenu 1 "Lunch" 1) categories active items 1
               (mkRestaurant 1 "North" 2)))
    /\ (forall c, In c categories <->
                  In c (menu_categories demo_site) /\ Menu_ID c = 1)
    /\ match active with
       | Some c =>
           (exists later, categories = c :: later)
           /\ forall i, In i items <->
                        In i (menu_items (store demo_site))
                        /\ Category_ID i = Menu_Category_id c
       | None => categories = [] /\ items = []
       end.
Proof.
  apply (customer_menu_default_category demo_site
           (mkOwnerRequest GET None None 50) 1 1 (mkMenu 1 "Lunch" 1)
           (mkRestaurant 1 "North" 2));
    reflexivity.
Defined.

(** The first category that a linked owner adds to a menu without
    categories is the one the menu page of a table then opens on. *)
Theorem first_category_becomes_default
    (s : Site) (request : OwnerRequest string) (visitor : OwnerRequest unit)
    (u menu_id table_id : Z) (owner : Owner) (menu : Menu)
    (restaurant : Restaurant) (link : Restaurant_Owner) (name : string) :
  req_user request = Some u ->
  req_method request = POST ->
  req_form request = Some name ->
  objects_get (fun o => Owner_user o =? u) (owners (store s)) = Ok owner ->
  objects_get (fun x => Menu_id x =? menu_id) (menus (store s)) = Ok menu ->
  objects_get (fun r => Restaurant_id r =? Menu_Restaurant_ID menu)
              (restaurants (store s)) = Ok restaurant ->
  objects_get (fun ro => (RO_Owner_ID ro =? Owner_id owner)
                         && (RO_Restaurant_ID ro =? Restaurant_id restaurant))
              (restaurant_owners (store s)) = Ok link ->
  categories_of s menu_id = [] ->
  snd (add_category request menu_id s) = Done (to_owner_menu menu_id 0)
  /\ snd (customer_menu visitor table_id menu_id 0
                        (fst (add_category request menu_id s)))
     = Done (page_menu_customer (req_user visitor) menu
               [mkMenu_Category
                  (fresh_id (map Menu_Category_id (menu_categories s)))
                  name menu_id]
               (Some (mkMenu_Category
                        (fresh_id (map Menu_Category_id (menu_categories s)))
                        name menu_id))
               (items_of (store s)
                         (fresh_id (map Menu_Category_id (menu_categories s))))
               table_id restaurant).
Proof.
  intros Huser Hpost Hform Howner Hmenu Hrestaurant Hlink Hnone.
  assert (Menu_id menu = menu_id) as Eid
    by (apply objects_get_Ok_In in Hmenu; now apply Z.eqb_eq).
  unfold add_category, customer_menu, active_category_and_items. site_unfold.
  unfold get_or_raise, get_object_or_404. cbv beta. cbn [Z.eqb].
  rewrite Huser, Howner, Hmenu, Hrestaurant, Hlink, Hpost, Hform.
  cbn [fst snd store]. split; [reflexivity|].
  rewrite Hmenu. unfold categories_of in *. cbn [menu_categories].
  rewrite filter_app, Hnone. cbn [filter app Menu_ID].
  rewrite Eid, Z.eqb_refl. cbn [store Menu_Category_id].
  rewrite Hrestaurant. reflexivity.
Qed.

(** Menu 3, of the first restaurant, has no category yet. *)
Lemma first_category_becomes_default_witness :
  snd (add_category (mkOwnerRequest POST (Some 7) (Some "Soups"%string) 50) 3
                    site_with_new_menu)
  = Done (to_owner_menu 3 0)
  /\ snd (customer_menu (mkOwnerRequest GET None None 51) 1 3 0
            (fst (add_category
                    (mkOwnerRequest POST (Some 7) (Some "Soups"%string) 50) 3
                    site_with_new_menu)))
     = Done (page_menu_customer
               (req_user (mkOwnerRequest (F:=unit) GET None None 51))
               (mkMenu 3 "Brunch" 1)
               [mkMenu_Category
                  (fresh_id (map Menu_Category_id
                                 (menu_categories site_with_new_menu)))
                  "Soups" 3]
               (Some (mkMenu_Category
                        (fresh_id (map Menu_Category_id
                                       (menu_categories site_with_new_menu)))
                        "Soups" 3))
               (items_of (store site_with_new_menu)
                         (fresh_id (map Menu_Category_id
                                        (menu_categories site_with_new_menu))))
               1 (mkRestaurant 1 "North" 2)).
Proof.
  apply (first_category_becomes_default site_with_new_menu
           (mkOwnerRequest POST (Some 7) (Some "Soups"%string) 50)
           (mkOwnerRequest GET None None 51) 7 3 1 (mkOwner 1 7)
           (mkMenu 3 "Brunch" 1) (mkRestaurant 1 "North" 2)
           (mkRestaurant_Owner 1 1 0) "Soups"%string);
    reflexivity.
Defined.
